(** * OrgFlow: the GraphQL resolvers and mutations of [backend/core/schema.py]

    A shallow embedding of the query resolvers and mutation commands of the
    schema over an explicit model of the Django store, and the properties of
    the authorization-aware data-access layer proved on it.

    Conventions of the embedding:
    - a table is a finite map from primary keys to rows; a model instance is
      a pair of its primary key and its row; a foreign key is the primary
      key it refers to, and following it is a lookup that can fail;
    - the many-to-many relation [Organization.members] is its join table, a
      finite set of (organization, user) pairs;
    - a resolver or a mutation is a computation in a state-and-exception
      monad over the store: a write that is made before an exception is
      raised stays in the store, as under Django's autocommit;
    - Python floats are IEEE 754 binary64 numbers ([SpecFloat]). *)

From Stdlib Require Import Floats.SpecFloat.
From stdpp Require Import gmap strings list fin_maps.

Local Open Scope string_scope.

(** ** Primary keys, the acting user, exceptions *)

(** Primary keys.  The [graphene.ID] arguments of the schema are taken
    after their coercion to a key of the table they address. *)
Abbreviation pk := positive (only parsing).

(** [info.context.user]: Django's [AnonymousUser], or the [User] row the
    request was authenticated as.  Model instances compare by primary key,
    and an [AnonymousUser] is equal to no [User]. *)
Inductive ContextUser : Type :=
  | AnonymousUser
  | AuthenticatedUser (id : pk).

Global Instance ContextUser_eq_dec : EqDecision ContextUser.
Proof. solve_decision. Defined.

Definition is_authenticated (user : ContextUser) : bool :=
  match user with
  | AnonymousUser => false
  | AuthenticatedUser _ => true
  end.

Inductive Model : Type := MUser | MOrganization | MProject | MTask.

Global Instance Model_eq_dec : EqDecision Model.
Proof. solve_decision. Defined.

(** The exceptions the schema raises or lets through.  [PyException msg]
    is the plain [raise Exception(msg)] of the source. *)
Inductive Exception : Type :=
  | PyException (msg : string)
  | DoesNotExist (model : Model)
  | MultipleObjectsReturned (model : Model)
  | ValueError (msg : string)
  | IntegrityError (model : Model)
  | ZeroDivisionError.

Global Instance Exception_eq_dec : EqDecision Exception.
Proof. solve_decision. Defined.

(** ** Rows *)

(** [django.contrib.auth.models.User], the columns the schema touches. *)
Record User : Type := mkUser {
  user_username : string;
  user_email : string;
  user_password : string
}.

(** Modelled from the spec: the [Organization] model of [models.py], which
    is not part of the sources at hand: unique [slug], [name], optional
    [owner].  Its [members] live in the join table of the store. *)
Record Organization : Type := mkOrganization {
  org_name : string;
  org_slug : string;
  org_owner : option pk
}.

(** Modelled from the spec: the [Project] model of [models.py]: it belongs
    to one organization and has a name, a description, an optional due date
    and a free-form status. *)
Record Project : Type := mkProject {
  project_organization : pk;
  project_name : string;
  project_description : string;
  project_due_date : option string;
  project_status : string
}.

(** Modelled from the spec: the [Task] model of [models.py]: it belongs to
    one project and has a title, a description, a status, an optional
    free-text assignee email and an optional due date. *)
Record Task : Type := mkTask {
  task_project : pk;
  task_title : string;
  task_description : string;
  task_status : string;
  task_assignee_email : option string;
  task_due_date : option string
}.

Global Instance User_eq_dec : EqDecision User.
Proof. solve_decision. Defined.
Global Instance Organization_eq_dec : EqDecision Organization.
Proof. solve_decision. Defined.
Global Instance Project_eq_dec : EqDecision Project.
Proof. solve_decision. Defined.
Global Instance Task_eq_dec : EqDecision Task.
Proof. solve_decision. Defined.

(** Attribute assignments on a loaded [Task] instance. *)
Definition set_task_status (v : string) (t : Task) : Task :=
  mkTask (task_project t) (task_title t) (task_description t) v
         (task_assignee_email t) (task_due_date t).
Definition set_task_description (v : string) (t : Task) : Task :=
  mkTask (task_project t) (task_title t) v (task_status t)
         (task_assignee_email t) (task_due_date t).
Definition set_task_assignee_email (v : option string) (t : Task) : Task :=
  mkTask (task_project t) (task_title t) (task_description t) (task_status t)
         v (task_due_date t).
Definition set_task_due_date (v : option string) (t : Task) : Task :=
  mkTask (task_project t) (task_title t) (task_description t) (task_status t)
         (task_assignee_email t) v.
Definition set_project_status (v : string) (p : Project) : Project :=
  mkProject (project_organization p) (project_name p) (project_description p)
            (project_due_date p) v.

(** ** The store *)

Record DB : Type := mkDB {
  users : gmap pk User;
  organizations : gmap pk Organization;
  organization_members : gset (pk * pk);
  projects : gmap pk Project;
  tasks : gmap pk Task
}.

Definition set_users (f : gmap pk User → gmap pk User) (db : DB) : DB :=
  mkDB (f (users db)) (organizations db) (organization_members db)
       (projects db) (tasks db).
Definition set_organizations
    (f : gmap pk Organization → gmap pk Organization) (db : DB) : DB :=
  mkDB (users db) (f (organizations db)) (organization_members db)
       (projects db) (tasks db).
Definition set_organization_members
    (f : gset (pk * pk) → gset (pk * pk)) (db : DB) : DB :=
  mkDB (users db) (organizations db) (f (organization_members db))
       (projects db) (tasks db).
Definition set_projects (f : gmap pk Project → gmap pk Project) (db : DB) : DB :=
  mkDB (users db) (organizations db) (organization_members db)
       (f (projects db)) (tasks db).
Definition set_tasks (f : gmap pk Task → gmap pk Task) (db : DB) : DB :=
  mkDB (users db) (organizations db) (organization_members db)
       (projects db) (f (tasks db)).

(** ** The monad of resolvers and mutations *)

Definition M (A : Type) : Type := DB → (Exception + A) * DB.

Global Instance M_ret : MRet M := λ A a db, (inr a, db).
Global Instance M_bind : MBind M := λ A B f c db,
  match c db with
  | (inl e, db') => (inl e, db')
  | (inr a, db') => f a db'
  end.

Definition raise {A} (e : Exception) : M A := λ db, (inl e, db).
Definition gets {A} (f : DB → A) : M A := λ db, (inr (f db), db).
Definition modify (f : DB → DB) : M unit := λ db, (inr tt, f db).

(** [try: body except E: handler], where [catches] tells the exceptions
    of class [E] from the others. *)
Definition try_except {A} (body : M A) (catches : Exception → bool)
    (handler : M A) : M A := λ db,
  match body db with
  | (inl e, db') => if catches e then handler db' else (inl e, db')
  | (inr a, db') => (inr a, db')
  end.

(** ** Python numbers *)

Abbreviation float := spec_float (only parsing).

(** [float(n)] for a Python [int]: the binary64 number nearest to [n]. *)
Definition float_of_int (n : Z) : float := binary_normalize 53 1024 n 0 false.

(** [a / b] on Python [int]s: true division, raising on a zero divisor.
    Row counts are far below [2^53], where both operands convert exactly
    and the quotient is the correctly rounded one. *)
Definition int_truediv (a b : Z) : M float :=
  if decide (b = 0%Z) then raise ZeroDivisionError
  else mret (SFdiv 53 1024 (float_of_int a) (float_of_int b)).

(** [x * n] for a [float] [x] and an [int] [n]. *)
Definition float_mul_int (x : float) (n : Z) : float :=
  SFmul 53 1024 x (float_of_int n).

(** The float literal [0.0]. *)
Definition float_zero : float := S754_zero false.

(** ** The persistence gateway: Django's managers and descriptors *)

(** [Model.objects.get(pk=id)] on a table. *)
Definition objects_get {A} (model : Model) (table : DB → gmap pk A)
    (id : pk) : M (pk * A) := λ db,
  match table db !! id with
  | Some row => (inr (id, row), db)
  | None => (inl (DoesNotExist model), db)
  end.

Definition Project_objects_get : pk → M (pk * Project) :=
  objects_get MProject projects.
Definition Task_objects_get : pk → M (pk * Task) :=
  objects_get MTask tasks.

(** [User.objects.filter(username=username).exists()]. *)
Definition User_objects_filter_username_exists (username : string) : M bool :=
  gets (λ db,
    bool_decide (map_Exists (λ _ u, user_username u = username) (users db))).

(** [UserManager.create_user(username=, email=, password=)] of Django: an
    empty username is refused with a [ValueError]; otherwise the email is
    normalized (its domain in lower case), the username is normalized
    (Unicode NFKC) and the password is hashed, and the row is inserted
    under a new primary key.  The username column is unique: the insert
    of a username that a row of the table has, which the normalization
    can bring about for a username that no row has as it was given, is
    refused with an [IntegrityError]. *)
Definition User_objects_create_user
    (normalize_username normalize_email make_password : string → string)
    (username email password : string) : M (pk * User) :=
  if decide (username = "") then raise (ValueError "The given username must be set")
  else
    let email := normalize_email email in
    let username := normalize_username username in
    let row := mkUser username email (make_password password) in
    stored ← gets (λ db,
      bool_decide (map_Exists (λ _ u, user_username u = username) (users db)));
    if (stored : bool) then raise (IntegrityError MUser)
    else
      id ← gets (λ db, fresh (dom (users db)));
      modify (set_users (insert id row));;
      mret (id, row).

(** The rows of [Organization.objects.filter(slug=slug)]. *)
Definition Organization_objects_filter_slug (slug : string) (db : DB)
    : gmap pk Organization :=
  filter (λ kv, org_slug kv.2 = slug) (organizations db).

(** [Organization.objects.get(slug=slug)]: the one row with that slug. *)
Definition Organization_objects_get_slug (slug : string)
    : M (pk * Organization) := λ db,
  match map_to_list (Organization_objects_filter_slug slug db) with
  | [] => (inl (DoesNotExist MOrganization), db)
  | [org] => (inr org, db)
  | _ :: _ :: _ => (inl (MultipleObjectsReturned MOrganization), db)
  end.

(** [Organization.objects.create(name=, slug=, owner=)]. *)
Definition Organization_objects_create (name slug : string)
    (owner : pk * User) : M (pk * Organization) :=
  id ← gets (λ db, fresh (dom (organizations db)));
  let row := mkOrganization name slug (Some owner.1) in
  modify (set_organizations (insert id row));;
  mret (id, row).

(** [org.members.add(user)]: a row of the join table, written at once. *)
Definition Organization_members_add (org : pk * Organization)
    (user : pk * User) : M unit :=
  modify (set_organization_members (λ s, {[ (org.1, user.1) ]} ∪ s)).

(** [org.members.all()]: the users joined to [org] through the join table. *)
Definition Organization_members_all (org : pk * Organization) (db : DB)
    : gmap pk User :=
  filter (λ kv, (org.1, kv.1) ∈ organization_members db) (users db).

(** [user in queryset] for the acting user. *)
Definition user_in (user : ContextUser) (queryset : gmap pk User) : bool :=
  match user with
  | AnonymousUser => false
  | AuthenticatedUser id => bool_decide (is_Some (queryset !! id))
  end.

(** [org.save()]: the columns of the instance written to its row. *)
Definition Organization_save (org : pk * Organization) : M unit :=
  modify (set_organizations (insert org.1 org.2)).
Definition Project_save (project : pk * Project) : M unit :=
  modify (set_projects (insert project.1 project.2)).
Definition Task_save (task : pk * Task) : M unit :=
  modify (set_tasks (insert task.1 task.2)).

(** The forward descriptors [task.project], [project.organization] and
    [org.owner]: following a foreign key loads the row it refers to. *)
Definition Task_project (task : pk * Task) : M (pk * Project) :=
  objects_get MProject projects (task_project task.2).
Definition Project_organization (project : pk * Project)
    : M (pk * Organization) :=
  objects_get MOrganization organizations (project_organization project.2).
Definition Organization_owner (org : pk * Organization)
    : M (option (pk * User)) :=
  match org_owner org.2 with
  | None => mret None
  | Some id => owner ← objects_get MUser users id; mret (Some owner)
  end.

(** [owner != user] for a [User] row and the acting user. *)
Definition User_ne (owner : pk * User) (user : ContextUser) : bool :=
  negb (bool_decide (user = AuthenticatedUser owner.1)).

(** The reverse manager [project.tasks]: the tasks of the project. *)
Definition Project_tasks (project : pk * Project) (db : DB) : gmap pk Task :=
  filter (λ kv, task_project kv.2 = project.1) (tasks db).

(** [queryset.filter(status=status)] on tasks. *)
Definition Task_filter_status (status : string) (queryset : gmap pk Task)
    : gmap pk Task :=
  filter (λ kv, task_status kv.2 = status) queryset.

(** [queryset.count()]. *)
Definition count {A} (queryset : gmap pk A) : Z := Z.of_nat (size queryset).

(** ** Types: [ProjectType] *)

Definition ProjectType_resolve_task_count (self : pk * Project) : M Z :=
  gets (λ db, count (Project_tasks self db)).

Definition ProjectType_resolve_completion_rate (self : pk * Project)
    : M float :=
  total ← gets (λ db, count (Project_tasks self db));
  if decide (total = 0%Z) then mret float_zero
  else
    completed ← gets (λ db,
      count (Task_filter_status "DONE" (Project_tasks self db)));
    ratio ← int_truediv completed total;
    mret (float_mul_int ratio 100).

(** ** Queries *)

Definition Query_resolve_project (info : ContextUser) (id : pk)
    : M (option (pk * Project)) :=
  let user := info in
  if negb (is_authenticated user) then raise (PyException "Not logged in")
  else
    try_except
      (project ← Project_objects_get id;
       org ← Project_organization project;
       members ← gets (Organization_members_all org);
       if negb (user_in user members) then raise (PyException "Access Denied")
       else mret (Some project))
      (λ e, bool_decide (e = DoesNotExist MProject))
      (mret None).

(** ** Mutations *)

(** What [Register] returns: the new user, the organization, the token. *)
Record RegisterPayload : Type := mkRegister {
  register_user : pk * User;
  register_organization : pk * Organization;
  register_token : string
}.

Section Mutations.

(** The collaborators of the schema that live outside of it:
    [django.utils.text.slugify], the normalization of usernames and of
    emails and the password hasher of Django's user manager, and
    [graphql_jwt.shortcuts.get_token]. *)
Variable slugify : string → string.
Variable normalize_username : string → string.
Variable normalize_email : string → string.
Variable make_password : string → string.
Variable get_token : pk * User → string.

(** The column defaults of the [Task] model of [models.py], for the
    fields that [Task.objects.create(project=, title=)] leaves out. *)
Variable Task_description_default : string.
Variable Task_status_default : string.
Variable Task_assignee_email_default : option string.
Variable Task_due_date_default : option string.

Definition Register_mutate (info : ContextUser)
    (username password email organization_name : string)
    : M RegisterPayload :=
  (* 1. Create User *)
  taken ← User_objects_filter_username_exists username;
  if (taken : bool) then raise (PyException "Username already exists")
  else
    user ← User_objects_create_user normalize_username normalize_email
              make_password username email password;
    (* 2. Handle Organization *)
    let slug := slugify organization_name in
    org ← try_except
             (Organization_objects_get_slug slug)
             (λ e, bool_decide (e = DoesNotExist MOrganization))
             (Organization_objects_create organization_name slug user);
    (* 3. Link User to Org *)
    Organization_members_add org user;;
    Organization_save org;;
    (* 4. Generate Token *)
    let token := get_token user in
    mret (mkRegister user org token).

(** [Task.objects.create(project=project, title=title)]. *)
Definition Task_objects_create (project : pk * Project) (title : string)
    : M (pk * Task) :=
  id ← gets (λ db, fresh (dom (tasks db)));
  let row := mkTask project.1 title Task_description_default
               Task_status_default Task_assignee_email_default
               Task_due_date_default in
  modify (set_tasks (insert id row));;
  mret (id, row).

Definition UpdateTask_mutate (info : ContextUser) (task_id : pk)
    (status description assignee_email due_date : option string)
    : M (pk * Task) :=
  task ← Task_objects_get task_id;
  let user := info in
  (* SECURITY CHECK: Only Admin/Owner can assign tasks *)
  task ← match assignee_email with
         | Some email =>
             project ← Task_project task;
             org ← Project_organization project;
             owner ← Organization_owner org;
             match owner with
             | Some owner =>
                 if User_ne owner user
                 then raise (PyException
                        "Only the Organization Admin can assign tasks.")
                 else mret (task.1, set_task_assignee_email (Some email) task.2)
             | None =>
                 mret (task.1, set_task_assignee_email (Some email) task.2)
             end
         | None => mret task
         end;
  (* [if status:] is false for [None] and for the empty string *)
  let task :=
    match status with
    | Some s => if decide (s = "") then task
                else (task.1, set_task_status s task.2)
    | None => task
    end in
  let task :=
    match description with
    | Some d => (task.1, set_task_description d task.2)
    | None => task
    end in
  let task :=
    match due_date with
    | Some d =>
        (task.1,
         set_task_due_date (if decide (d = "") then None else Some d) task.2)
    | None => task
    end in
  Task_save task;;
  mret task.

Definition UpdateProject_mutate (info : ContextUser) (project_id : pk)
    (status : string) : M (pk * Project) :=
  project ← Project_objects_get project_id;
  let project := (project.1, set_project_status status project.2) in
  Project_save project;;
  mret project.

Definition CreateTask_mutate (info : ContextUser) (project_id : pk)
    (title : string) : M (pk * Task) :=
  project ← Project_objects_get project_id;
  task ← Task_objects_create project title;
  mret task.

End Mutations.

(** ** The words of the specification *)

(** The spec's completion rate: [(part / whole) * 100] as a float. *)
Definition percent_of (part whole : Z) : float :=
  float_mul_int (SFdiv 53 1024 (float_of_int part) (float_of_int whole)) 100.

(** The float [50.0], that is [7036874417766400 * 2^(-47)]. *)
Definition float_fifty : float := S754_finite false 7036874417766400 (-47).

(** The statuses of the tasks of a project, in the order of the table. *)
Definition Project_task_statuses (project : pk * Project) (db : DB)
    : list string :=
  (λ kv, task_status kv.2) <$> map_to_list (Project_tasks project db).

(** The spec's [canAssignTask(actor, task)]: the assignment is denied iff
    the organization of the task's project has an owner and the owner is
    not the actor.  It is [false] as well where a foreign key on the way
    to the owner dangles, since the mutation then fails with
    [DoesNotExist]. *)
Definition canAssignTask (db : DB) (actor : ContextUser) (task : Task) : bool :=
  match projects db !! task_project task with
  | None => false
  | Some project =>
      match organizations db !! project_organization project with
      | None => false
      | Some org =>
          match org_owner org with
          | None => true
          | Some owner =>
              bool_decide (is_Some (users db !! owner))
              && bool_decide (actor = AuthenticatedUser owner)
          end
      end
  end.

(** The spec's membership of a user in an organization. *)
Definition is_member (db : DB) (org user : pk) : Prop :=
  (org, user) ∈ organization_members db ∧ is_Some (users db !! user).

(** ** A sample store and sample collaborators, for the examples *)

Module Sample.

Definition lower (c : Ascii.ascii) : Ascii.ascii :=
  let n := Ascii.nat_of_ascii c in
  if (65 <=? n)%nat && (n <=? 90)%nat then Ascii.ascii_of_nat (n + 32) else c.

(** A stand-in for [slugify] on one-word ASCII names: lower case. *)
Fixpoint slugify (s : string) : string :=
  match s with
  | EmptyString => EmptyString
  | String c s' => String (lower c) (slugify s')
  end.

(** A stand-in for the NFKC normalization of usernames: the ligature of
    f and i (U+FB01, the bytes 239 172 129 of UTF-8) becomes the two
    letters, and every other character stays. *)
Fixpoint normalize_username (s : string) : string :=
  match s with
  | EmptyString => EmptyString
  | String c s' =>
      match s' with
      | String c2 (String c3 s'') =>
          if Ascii.eqb c (Ascii.ascii_of_nat 239)
             && Ascii.eqb c2 (Ascii.ascii_of_nat 172)
             && Ascii.eqb c3 (Ascii.ascii_of_nat 129)
          then "fi" ++ normalize_username s''
          else String c (normalize_username s')
      | _ => String c (normalize_username s')
      end
  end.

Fixpoint lower_case (s : string) : string :=
  match s with
  | EmptyString => EmptyString
  | String c s' => String (lower c) (lower_case s')
  end.

(** A stand-in for [normalize_email] on addresses with one [@]: the
    domain, after the [@], in lower case. *)
Fixpoint normalize_email (s : string) : string :=
  match s with
  | EmptyString => EmptyString
  | String c s' =>
      if Ascii.eqb c (Ascii.ascii_of_nat 64) then String c (lower_case s')
      else String c (normalize_email s')
  end.

Definition make_password (password : string) : string :=
  "hashed$" ++ password.

Definition get_token (user : pk * User) : string :=
  "token-for-" ++ user_username user.2.

Definition alice : User := mkUser "alice" "a@x.com" "hashed$pw".
Definition bob : User := mkUser "bob" "b@x.com" "hashed$pw".
Definition carol : User := mkUser "carol" "c@y.com" "hashed$pw".

Definition acme : Organization := mkOrganization "Acme" "acme" (Some 1%positive).

Definition website : Project := mkProject 1 "Website" "" None "ACTIVE".
Definition backlog : Project := mkProject 1 "Backlog" "" None "ACTIVE".

Definition task (project : pk) (title status : string) : Task :=
  mkTask project title "" status None None.

(** Alice owns Acme, Bob is a member of it, Carol is not.  The project
    Website has four tasks, two of them done; Backlog has none. *)
Definition db : DB :=
  mkDB (list_to_map [(1%positive, alice); (2%positive, bob); (3%positive, carol)])
       (list_to_map [(1%positive, acme)])
       (list_to_set [(1%positive, 1%positive); (1%positive, 2%positive)])
       (list_to_map [(1%positive, website); (2%positive, backlog)])
       (list_to_map [(1%positive, task 1 "Design" "DONE");
                     (2%positive, task 1 "Build" "DONE");
                     (3%positive, task 1 "Test" "TODO");
                     (4%positive, task 1 "Ship" "TODO")]).

End Sample.

(** ** Types: [OrganizationType] *)

(** [Project.objects.filter(organization=self)]. *)
Definition OrganizationType_resolve_projects (self : pk * Organization)
    (info : ContextUser) : M (gmap pk Project) :=
  gets (λ db, filter (λ kv, project_organization kv.2 = self.1) (projects db)).

(** [owner == user] for the optional [User] row of an owner and the acting
    user: [None] is equal to no user. *)
Definition User_eq (owner : option (pk * User)) (user : ContextUser) : bool :=
  match owner with
  | Some owner => bool_decide (user = AuthenticatedUser owner.1)
  | None => false
  end.

Definition OrganizationType_resolve_is_admin (self : pk * Organization)
    (info : ContextUser) : M bool :=
  owner ← Organization_owner self;
  mret (User_eq owner info).

(** ** Queries: [my_organization] *)

(** The reverse manager [user.organizations]: the organizations joined to
    the user through the join table. *)
Definition User_organizations (user : pk) (db : DB) : gmap pk Organization :=
  filter (λ kv, (kv.1, user) ∈ organization_members db) (organizations db).

Section Ordering.

(** The order in which a queryset of organizations is listed: the
    [Meta.ordering] of the [Organization] model of [models.py], or the
    primary key where the model has none. *)
Variable Organization_ordering :
  gmap pk Organization → list (pk * Organization).

Definition Query_resolve_my_organization (info : ContextUser)
    : M (option (pk * Organization)) :=
  let user := info in
  match user with
  | AnonymousUser =>
      (* [if not user.is_authenticated: return None] *)
      mret None
  | AuthenticatedUser id =>
      (* Return the first organization the user is a member of *)
      orgs ← gets (User_organizations id);
      mret (head (Organization_ordering orgs))
  end.

End Ordering.

(** ** Mutations: [CreateProject] *)

Section ProjectDefaults.

(** The column default of [Project.status] in [models.py]. *)
Variable Project_status_default : string.

(** [Project.objects.create(organization=, name=, description=, due_date=)]. *)
Definition Project_objects_create (org : pk * Organization)
    (name description : string) (due_date : option string)
    : M (pk * Project) :=
  id ← gets (λ db, fresh (dom (projects db)));
  let row := mkProject org.1 name description due_date
               Project_status_default in
  modify (set_projects (insert id row));;
  mret (id, row).

(** [description] and [due_date] are the keyword arguments after their
    Python defaults ([""] and [None]) have stood in for an omitted one. *)
Definition CreateProject_mutate (info : ContextUser)
    (org_slug name description : string) (due_date : option string)
    : M (pk * Project) :=
  org ← Organization_objects_get_slug org_slug;
  let due_date := if decide (due_date = Some "") then None else due_date in
  project ← Project_objects_create org name description due_date;
  mret project.

End ProjectDefaults.

(** ** Mutations: [AddComment] *)

(** Modelled from the spec: the [TaskComment] model of [models.py]: it
    belongs to one task and has a content and an author. *)
Record TaskComment : Type := mkTaskComment {
  comment_task : pk;
  comment_content : string;
  comment_author : pk
}.

Global Instance TaskComment_eq_dec : EqDecision TaskComment.
Proof. solve_decision. Defined.

(** The store together with the table of comments. *)
Record Store : Type := mkStore {
  store_db : DB;
  task_comments : gmap pk TaskComment
}.

Definition MS (A : Type) : Type := Store → (Exception + A) * Store.

Global Instance MS_ret : MRet MS := λ A a st, (inr a, st).
Global Instance MS_bind : MBind MS := λ A B f c st,
  match c st with
  | (inl e, st') => (inl e, st')
  | (inr a, st') => f a st'
  end.

(** A computation on the other tables, run on the store with comments. *)
Definition lift_db {A} (c : M A) : MS A := λ st,
  let '(r, db') := c (store_db st) in (r, mkStore db' (task_comments st)).

(** [TaskComment.objects.create(task=, content=, author=)]. *)
Definition TaskComment_objects_create (task : pk * Task) (content : string)
    (author : pk) : MS (pk * TaskComment) := λ st,
  let id := fresh (dom (task_comments st)) in
  let row := mkTaskComment task.1 content author in
  (inr (id, row), mkStore (store_db st) (<[id := row]> (task_comments st))).

Definition AddComment_mutate (info : ContextUser) (task_id : pk)
    (content : string) : MS (pk * TaskComment) :=
  let user := info in
  match user with
  | AnonymousUser =>
      (* [if not user.is_authenticated: raise] *)
      lift_db (raise (PyException "You must be logged in to comment."))
  | AuthenticatedUser author =>
      task ← lift_db (Task_objects_get task_id);
      (* Create comment linked to the logged-in user *)
      comment ← TaskComment_objects_create task content author;
      mret comment
  end.

(** ** The root [Mutation] type *)

(** A selection of one of the fields of [Mutation] with its arguments.
    The three fields of [graphql_jwt] (login, verify, refresh) write to
    none of the tables and are left out. *)
Inductive MutationCall : Type :=
  | register (username password email organization_name : string)
  | create_project (org_slug name description : string)
      (due_date : option string)
  | update_project (project_id : pk) (status : string)
  | create_task (project_id : pk) (title : string)
  | update_task (task_id : pk)
      (status description assignee_email due_date : option string)
  | add_comment (task_id : pk) (content : string).

Inductive Payload : Type :=
  | RegisterResult (payload : RegisterPayload)
  | ProjectResult (project : pk * Project)
  | TaskResult (task : pk * Task)
  | CommentResult (comment : pk * TaskComment).

Section Dispatch.

Variable slugify : string → string.
Variable normalize_username : string → string.
Variable normalize_email : string → string.
Variable make_password : string → string.
Variable get_token : pk * User → string.
Variable Task_description_default : string.
Variable Task_status_default : string.
Variable Task_assignee_email_default : option string.
Variable Task_due_date_default : option string.
Variable Project_status_default : string.

(** The mutation a selected field runs, for the acting user [info]. *)
Definition Mutation_execute (info : ContextUser) (call : MutationCall)
    : MS Payload :=
  match call with
  | register username password email organization_name =>
      payload ← lift_db (Register_mutate slugify normalize_username
                           normalize_email make_password get_token info
                           username password email organization_name);
      mret (RegisterResult payload)
  | create_project org_slug name description due_date =>
      project ← lift_db (CreateProject_mutate Project_status_default info
                           org_slug name description due_date);
      mret (ProjectResult project)
  | update_project project_id status =>
      project ← lift_db (UpdateProject_mutate info project_id status);
      mret (ProjectResult project)
  | create_task project_id title =>
      task ← lift_db (CreateTask_mutate Task_description_default
                        Task_status_default Task_assignee_email_default
                        Task_due_date_default info project_id title);
      mret (TaskResult task)
  | update_task task_id status description assignee_email due_date =>
      task ← lift_db (UpdateTask_mutate info task_id status description
                        assignee_email due_date);
      mret (TaskResult task)
  | add_comment task_id content =>
      comment ← AddComment_mutate info task_id content;
      mret (CommentResult comment)
  end.

End Dispatch.

(** ** Integrity of the store *)

(** No two users have the same username; no two organizations the same
    slug. *)
Definition unique_usernames (db : DB) : Prop :=
  map_Forall (λ id1 u1,
    map_Forall (λ id2 u2, user_username u1 = user_username u2 → id1 = id2)
      (users db)) (users db).

Definition unique_slugs (db : DB) : Prop :=
  map_Forall (λ id1 o1,
    map_Forall (λ id2 o2, org_slug o1 = org_slug o2 → id1 = id2)
      (organizations db)) (organizations db).

Global Instance unique_usernames_dec db : Decision (unique_usernames db).
Proof. unfold unique_usernames. apply _. Defined.
Global Instance unique_slugs_dec db : Decision (unique_slugs db).
Proof. unfold unique_slugs. apply _. Defined.

(** Every row of the join table joins an organization and a user that
    exist. *)
Definition members_known (db : DB) : Prop :=
  set_Forall (λ m, is_Some (organizations db !! m.1)
                   ∧ is_Some (users db !! m.2))
    (organization_members db).

Global Instance members_known_dec db : Decision (members_known db).
Proof. unfold members_known. apply _. Defined.

(** The owner of an organization is one of its members. *)
Definition owners_are_members (db : DB) : Prop :=
  map_Forall (λ id o, ∀ owner, org_owner o = Some owner → is_member db id owner)
    (organizations db).

Global Instance is_member_dec db org user : Decision (is_member db org user).
Proof. unfold is_member. apply _. Defined.

Global Instance owners_are_members_dec db : Decision (owners_are_members db).
Proof.
  unfold owners_are_members. apply map_Forall_dec. intros id o.
  destruct (org_owner o) as [w|].
  - destruct (decide (is_member db id w)) as [Hin|Hout].
    + left. by intros ? [= <-].
    + right. intros Hall. by apply Hout, Hall.
  - left. by intros ? [=].
Defined.

(** Every project belongs to an organization of the store, every task to
    a project of the store. *)
Definition projects_known (db : DB) : Prop :=
  map_Forall (λ _ p, is_Some (organizations db !! project_organization p))
    (projects db).

Definition tasks_known (db : DB) : Prop :=
  map_Forall (λ _ t, is_Some (projects db !! task_project t)) (tasks db).

Global Instance projects_known_dec db : Decision (projects_known db).
Proof. unfold projects_known. apply _. Defined.
Global Instance tasks_known_dec db : Decision (tasks_known db).
Proof. unfold tasks_known. apply _. Defined.

(** Every comment is on a task of the store and by a user of the store. *)
Definition comments_known (st : Store) : Prop :=
  map_Forall (λ _ c, is_Some (tasks (store_db st) !! comment_task c)
                     ∧ is_Some (users (store_db st) !! comment_author c))
    (task_comments st).

Global Instance comments_known_dec st : Decision (comments_known st).
Proof. unfold comments_known. apply _. Defined.

Definition consistent_db (db : DB) : Prop :=
  unique_usernames db
  ∧ unique_slugs db
  ∧ members_known db
  ∧ owners_are_members db
  ∧ projects_known db
  ∧ tasks_known db.

Definition consistent (st : Store) : Prop :=
  consistent_db (store_db st) ∧ comments_known st.

Global Instance consistent_db_dec db : Decision (consistent_db db).
Proof. unfold consistent_db. apply _. Defined.
Global Instance consistent_dec st : Decision (consistent st).
Proof. unfold consistent. apply _. Defined.

(** The second store has every row of the first, or a row in its place
    under the same primary key. *)
Definition grows (st st' : Store) : Prop :=
  users (store_db st) ⊆ users (store_db st')
  ∧ organizations (store_db st) ⊆ organizations (store_db st')
  ∧ organization_members (store_db st) ⊆ organization_members (store_db st')
  ∧ dom (projects (store_db st)) ⊆ dom (projects (store_db st'))
  ∧ dom (tasks (store_db st)) ⊆ dom (tasks (store_db st'))
  ∧ task_comments st ⊆ task_comments st'.

(** The writes of the mutations on the tables other than the comments:
    none, one project or one task written, one user added, or a user
    added and joined to an organization that is new or was there. *)
Inductive db_step (db : DB) : DB → Prop :=
  | db_step_none : db_step db db
  | db_step_project id row :
      is_Some (organizations db !! project_organization row) →
      db_step db (set_projects (insert id row) db)
  | db_step_task id row :
      is_Some (projects db !! task_project row) →
      db_step db (set_tasks (insert id row) db)
  | db_step_user user_id user_row :
      users db !! user_id = None →
      map_Forall (λ _ u, user_username u ≠ user_username user_row) (users db) →
      db_step db (set_users (insert user_id user_row) db)
  | db_step_register user_id user_row org_id org :
      users db !! user_id = None →
      map_Forall (λ _ u, user_username u ≠ user_username user_row) (users db) →
      (organizations db !! org_id = None
       ∧ org_owner org = Some user_id
       ∧ map_Forall (λ _ o, org_slug o ≠ org_slug org) (organizations db))
      ∨ organizations db !! org_id = Some org →
      db_step db
        (mkDB (<[user_id := user_row]> (users db))
           (<[org_id := org]> (organizations db))
           ({[ (org_id, user_id) ]} ∪ organization_members db)
           (projects db) (tasks db)).

(** The acting user of a request is anonymous or a user of the store. *)
Definition actor_known (info : ContextUser) (st : Store) : Prop :=
  match info with
  | AnonymousUser => True
  | AuthenticatedUser id => is_Some (users (store_db st) !! id)
  end.

Definition empty_store : Store := mkStore (mkDB ∅ ∅ ∅ ∅ ∅) ∅.

(** The stores that the mutations of the schema build from the empty
    one, each request acting for a known user. *)
Inductive reachable
    (slugify normalize_username normalize_email make_password : string → string)
    (get_token : pk * User → string)
    (Task_description_default Task_status_default : string)
    (Task_assignee_email_default Task_due_date_default : option string)
    (Project_status_default : string) : Store → Prop :=
  | reachable_empty :
      reachable slugify normalize_username normalize_email make_password
          get_token Task_description_default
        Task_status_default Task_assignee_email_default Task_due_date_default
        Project_status_default empty_store
  | reachable_step st info call :
      reachable slugify normalize_username normalize_email make_password
          get_token Task_description_default
        Task_status_default Task_assignee_email_default Task_due_date_default
        Project_status_default st →
      actor_known info st →
      reachable slugify normalize_username normalize_email make_password
          get_token Task_description_default
        Task_status_default Task_assignee_email_default Task_due_date_default
        Project_status_default
        (Mutation_execute slugify normalize_username normalize_email make_password
            get_token
           Task_description_default Task_status_default
           Task_assignee_email_default Task_due_date_default
           Project_status_default info call st).2.

(** * Properties *)

(** ** Stepping through the monad *)

Lemma objects_get_Some {A} model (table : DB → gmap pk A) id row db :
  table db !! id = Some row →
  objects_get model table id db = (inr (id, row), db).
Proof. intros H. unfold objects_get. by rewrite H. Qed.

Lemma objects_get_None {A} model (table : DB → gmap pk A) id db :
  table db !! id = None →
  objects_get model table id db = (inl (DoesNotExist model), db).
Proof. intros H. unfold objects_get. by rewrite H. Qed.

Lemma bind_inr {A B} (c : M A) (f : A → M B) a db db' :
  c db = (inr a, db') → (c ≫= f) db = f a db'.
Proof. intros H. unfold mbind, M_bind. by rewrite H. Qed.

Lemma bind_inl {A B} (c : M A) (f : A → M B) e db db' :
  c db = (inl e, db') → (c ≫= f) db = (inl e, db').
Proof. intros H. unfold mbind, M_bind. by rewrite H. Qed.

Ltac monad_unfold :=
  unfold mbind, M_bind, mret, M_ret, gets, modify, raise; simpl.

Lemma fresh_key_None {A} (m : gmap pk A) : m !! fresh (dom m) = None.
Proof. apply not_elem_of_dom, is_fresh. Qed.

(** ** UpdateProject *)

(** C8: whoever the actor is, anonymous included, [UpdateProject] on an
    existing project succeeds without any check, overwrites the status of
    the project with the given value and saves it: the project is
    returned with the new status, and the store holds it with that status,
    all its other columns and every other row being as before. *)
Theorem UpdateProject_mutate_unconditional
    (db : DB) (info : ContextUser) (project_id : pk) (p : Project)
    (status : string) :
  projects db !! project_id = Some p →
  ∃ p' db',
    UpdateProject_mutate info project_id status db = (inr (project_id, p'), db')
    ∧ projects db' !! project_id = Some p'
    ∧ project_status p' = status
    ∧ p' = set_project_status status p
    ∧ db' = set_projects (insert project_id p') db.
Proof.
  intros Hp. exists (set_project_status status p). eexists.
  unfold UpdateProject_mutate, Project_objects_get.
  rewrite (bind_inr _ _ _ _ _ (objects_get_Some MProject projects _ _ _ Hp)).
  unfold Project_save. monad_unfold.
  split; [reflexivity|]. split; [apply lookup_insert_eq|]. done.
Qed.

Lemma UpdateProject_mutate_unconditional_witness :
  ∃ p' db',
    UpdateProject_mutate AnonymousUser 1 "ARCHIVED" Sample.db
      = (inr (1%positive, p'), db')
    ∧ projects db' !! 1%positive = Some p'
    ∧ project_status p' = "ARCHIVED"
    ∧ p' = set_project_status "ARCHIVED" Sample.website
    ∧ db' = set_projects (insert 1%positive p') Sample.db.
Proof.
  apply (UpdateProject_mutate_unconditional Sample.db AnonymousUser 1
           Sample.website "ARCHIVED").
  reflexivity.
Defined.

(** ** CreateTask *)

(** C10: [CreateTask] checks neither authentication nor membership: for
    every actor, the anonymous one included, it succeeds on an existing
    project and creates, under a new primary key, a task of that project
    with the given title and the defaults of the model elsewhere. *)
Theorem CreateTask_mutate_unchecked
    (description_default status_default : string)
    (assignee_email_default due_date_default : option string)
    (db : DB) (info : ContextUser) (project_id : pk) (p : Project)
    (title : string) :
  projects db !! project_id = Some p →
  ∃ id t db',
    CreateTask_mutate description_default status_default
        assignee_email_default due_date_default info project_id title db
      = (inr (id, t), db')
    ∧ tasks db !! id = None
    ∧ tasks db' !! id = Some t
    ∧ Project_tasks (project_id, p) db' !! id = Some t
    ∧ t = mkTask project_id title description_default status_default
            assignee_email_default due_date_default
    ∧ db' = set_tasks (insert id t) db.
Proof.
  intros Hp. eexists _, _, _.
  unfold CreateTask_mutate, Project_objects_get.
  rewrite (bind_inr _ _ _ _ _ (objects_get_Some MProject projects _ _ _ Hp)).
  unfold Task_objects_create. monad_unfold.
  split; [reflexivity|]. split; [apply fresh_key_None|].
  split; [apply lookup_insert_eq|]. split; [|done].
  unfold Project_tasks. simpl.
  apply map_lookup_filter_Some. split; [apply lookup_insert_eq|done].
Qed.

Lemma CreateTask_mutate_unchecked_witness :
  ∃ id t db',
    CreateTask_mutate "" "TODO" None None AnonymousUser 2 "Triage" Sample.db
      = (inr (id, t), db')
    ∧ tasks Sample.db !! id = None
    ∧ tasks db' !! id = Some t
    ∧ Project_tasks (2%positive, Sample.backlog) db' !! id = Some t
    ∧ t = mkTask 2 "Triage" "" "TODO" None None
    ∧ db' = set_tasks (insert id t) Sample.db.
Proof.
  apply (CreateTask_mutate_unchecked "" "TODO" None None Sample.db
           AnonymousUser 2 Sample.backlog "Triage").
  reflexivity.
Defined.

(** ** Register: the duplicate username *)

Lemma username_exists_true (db : DB) (id : pk) (u : User) username :
  users db !! id = Some u → user_username u = username →
  User_objects_filter_username_exists username db = (inr true, db).
Proof.
  intros Hu Hn. unfold User_objects_filter_username_exists, gets.
  rewrite bool_decide_eq_true_2; [done|].
  apply map_Exists_lookup. eauto.
Qed.

Lemma username_exists_false (db : DB) username :
  map_Forall (λ _ u, user_username u ≠ username) (users db) →
  User_objects_filter_username_exists username db = (inr false, db).
Proof.
  intros Hall. unfold User_objects_filter_username_exists, gets.
  rewrite bool_decide_eq_false_2; [done|].
  by apply map_not_Exists.
Qed.

(** C9: when a user with the given username exists, [Register] fails with
    the exception "Username already exists" and the store is left exactly
    as it was: no user is created, no organization is created or changed,
    no membership is added; the call returns no payload, hence no token. *)
Theorem Register_mutate_duplicate_username
    (slugify normalize_username normalize_email make_password : string → string)
    (get_token : pk * User → string)
    (db : DB) (info : ContextUser) (id : pk) (u : User)
    (username password email organization_name : string) :
  users db !! id = Some u →
  user_username u = username →
  Register_mutate slugify normalize_username normalize_email make_password
      get_token info
      username password email organization_name db
    = (inl (PyException "Username already exists"), db).
Proof.
  intros Hu Hn. unfold Register_mutate.
  by rewrite (bind_inr _ _ _ _ _ (username_exists_true _ _ _ _ Hu Hn)).
Qed.

Lemma Register_mutate_duplicate_username_witness :
  Register_mutate Sample.slugify Sample.normalize_username Sample.normalize_email
      Sample.make_password Sample.get_token
      AnonymousUser "bob" "secret" "bob@z.com" "Globex" Sample.db
    = (inl (PyException "Username already exists"), Sample.db).
Proof.
  apply (Register_mutate_duplicate_username _ _ _ _ _ Sample.db
           AnonymousUser 2
           Sample.bob "bob" "secret" "bob@z.com" "Globex");
    reflexivity.
Defined.

(** ** The [project] query *)

Lemma members_all_lookup (db : DB) (org : pk * Organization) (user : pk) :
  is_Some (Organization_members_all org db !! user) ↔ is_member db org.1 user.
Proof.
  unfold Organization_members_all, is_member. split.
  - intros [u Hu]. apply map_lookup_filter_Some in Hu as [Hu Hin]. eauto.
  - intros [Hin [u Hu]]. exists u. by apply map_lookup_filter_Some.
Qed.

(** C2: the [project] query has four outcomes.  For the anonymous actor it
    raises "Not logged in".  For an authenticated actor and an id of no
    project it returns [None] and raises nothing.  For an authenticated
    actor who is not a member of the organization of the project it raises
    "Access Denied", an exception other than "Not logged in".  For an
    authenticated member it returns the project.  The store is never
    changed. *)
Theorem Query_resolve_project_outcomes :
  (∀ db id,
      Query_resolve_project AnonymousUser id db
        = (inl (PyException "Not logged in"), db))
  ∧ (∀ db user id,
      projects db !! id = None →
      Query_resolve_project (AuthenticatedUser user) id db = (inr None, db))
  ∧ (∀ db user id p org,
      projects db !! id = Some p →
      organizations db !! project_organization p = Some org →
      ¬ is_member db (project_organization p) user →
      Query_resolve_project (AuthenticatedUser user) id db
        = (inl (PyException "Access Denied"), db))
  ∧ (∀ db user id p org,
      projects db !! id = Some p →
      organizations db !! project_organization p = Some org →
      is_member db (project_organization p) user →
      Query_resolve_project (AuthenticatedUser user) id db
        = (inr (Some (id, p)), db))
  ∧ PyException "Access Denied" ≠ PyException "Not logged in".
Proof.
  split; [done|]. split; [|split; [|split; [|done]]].
  - intros db user id Hp.
    unfold Query_resolve_project, try_except, Project_objects_get. simpl.
    by rewrite (bind_inl _ _ _ _ _ (objects_get_None MProject projects _ _ Hp)).
  - intros db user id p org Hp Horg Hnot.
    unfold Query_resolve_project, try_except, Project_objects_get,
      Project_organization. simpl.
    rewrite (bind_inr _ _ _ _ _ (objects_get_Some MProject projects _ _ _ Hp)).
    simpl.
    rewrite (bind_inr _ _ _ _ _
               (objects_get_Some MOrganization organizations _ _ _ Horg)).
    monad_unfold.
    rewrite bool_decide_eq_false_2; [done|].
    intros Hin. by apply members_all_lookup in Hin.
  - intros db user id p org Hp Horg Hin.
    unfold Query_resolve_project, try_except, Project_objects_get,
      Project_organization. simpl.
    rewrite (bind_inr _ _ _ _ _ (objects_get_Some MProject projects _ _ _ Hp)).
    simpl.
    rewrite (bind_inr _ _ _ _ _
               (objects_get_Some MOrganization organizations _ _ _ Horg)).
    monad_unfold.
    rewrite bool_decide_eq_true_2; [done|].
    by apply (members_all_lookup db (project_organization p, org)).
Qed.

Lemma Sample_bob_is_member : is_member Sample.db 1 2.
Proof. split; [apply (bool_decide_unpack _); by vm_compute | by eexists]. Defined.

Lemma Sample_carol_is_not_member : ¬ is_member Sample.db 1 3.
Proof. intros [Hin _]. apply (bool_decide_pack _) in Hin. by vm_compute in Hin. Defined.

Lemma Query_resolve_project_outcomes_witness :
  Query_resolve_project AnonymousUser 1 Sample.db
    = (inl (PyException "Not logged in"), Sample.db)
  ∧ Query_resolve_project (AuthenticatedUser 2) 7 Sample.db
    = (inr None, Sample.db)
  ∧ Query_resolve_project (AuthenticatedUser 3) 1 Sample.db
    = (inl (PyException "Access Denied"), Sample.db)
  ∧ Query_resolve_project (AuthenticatedUser 2) 1 Sample.db
    = (inr (Some (1%positive, Sample.website)), Sample.db).
Proof.
  destruct Query_resolve_project_outcomes as (Hanon & Hnone & Hdenied & Hok & _).
  split; [apply Hanon|]. split; [by apply Hnone|].
  split.
  - apply (Hdenied Sample.db 3%positive 1%positive Sample.website Sample.acme);
      [reflexivity | reflexivity | exact Sample_carol_is_not_member].
  - apply (Hok Sample.db 2%positive 1%positive Sample.website Sample.acme);
      [reflexivity | reflexivity | exact Sample_bob_is_member].
Defined.

(** ** UpdateTask *)

(** C3: when [assigneeEmail] is provided, the organization of the task's
    project has an owner and the actor is not that owner, [UpdateTask]
    fails with "Only the Organization Admin can assign tasks." and the
    store is exactly as before: whatever status, description and due date
    were provided with it, nothing of the call is applied to the task. *)
Theorem UpdateTask_mutate_denied_no_write
    (db : DB) (info : ContextUser) (task_id : pk) (t : Task) (p : Project)
    (org : Organization) (owner : pk) (owner_row : User)
    (status description due_date : option string) (email : string) :
  tasks db !! task_id = Some t →
  projects db !! task_project t = Some p →
  organizations db !! project_organization p = Some org →
  org_owner org = Some owner →
  users db !! owner = Some owner_row →
  info ≠ AuthenticatedUser owner →
  UpdateTask_mutate info task_id status description (Some email) due_date db
    = (inl (PyException "Only the Organization Admin can assign tasks."), db)
  ∧ tasks db !! task_id = Some t.
Proof.
  intros Ht Hp Horg Hown Hrow Hne. split; [|done].
  unfold UpdateTask_mutate, Task_objects_get, Task_project,
    Project_organization, Organization_owner, User_ne, objects_get.
  monad_unfold. rewrite Ht. simpl. rewrite Hp. simpl. rewrite Horg. simpl.
  rewrite Hown. simpl. rewrite Hrow. simpl.
  rewrite bool_decide_eq_false_2; done.
Qed.

Lemma UpdateTask_mutate_denied_no_write_witness :
  UpdateTask_mutate (AuthenticatedUser 2) 3 (Some "DONE") (Some "run the suite")
      (Some "b@x.com") (Some "2025-01-31") Sample.db
    = (inl (PyException "Only the Organization Admin can assign tasks."),
       Sample.db)
  ∧ tasks Sample.db !! 3%positive = Some (Sample.task 1 "Test" "TODO").
Proof.
  apply (UpdateTask_mutate_denied_no_write Sample.db (AuthenticatedUser 2) 3
           (Sample.task 1 "Test" "TODO") Sample.website Sample.acme 1
           Sample.alice);
    [reflexivity | reflexivity | reflexivity | reflexivity | reflexivity
    | discriminate].
Defined.

(** What a call of [UpdateTask] that is not denied does, field by field. *)
Lemma UpdateTask_mutate_allowed
    (db : DB) (info : ContextUser) (task_id : pk) (t : Task)
    (status description assignee_email due_date : option string) :
  tasks db !! task_id = Some t →
  assignee_email = None ∨ canAssignTask db info t = true →
  ∃ t',
    UpdateTask_mutate info task_id status description assignee_email due_date db
      = (inr (task_id, t'), set_tasks (insert task_id t') db)
    ∧ task_status t'
      = match status with
        | Some s => if decide (s = "") then task_status t else s
        | None => task_status t
        end
    ∧ task_description t' = default (task_description t) description
    ∧ task_assignee_email t'
      = match assignee_email with
        | Some email => Some email
        | None => task_assignee_email t
        end
    ∧ task_due_date t'
      = match due_date with
        | Some d => if decide (d = "") then None else Some d
        | None => task_due_date t
        end
    ∧ task_project t' = task_project t
    ∧ task_title t' = task_title t.
Proof.
  intros Ht Hallowed.
  unfold UpdateTask_mutate, Task_objects_get, Task_project,
    Project_organization, Organization_owner, User_ne, Task_save, objects_get.
  monad_unfold. rewrite Ht. simpl.
  destruct assignee_email as [email|].
  - destruct Hallowed as [|Hcan]; [done|].
    unfold canAssignTask in Hcan.
    destruct (projects db !! task_project t) as [p|]; [simpl|done].
    destruct (organizations db !! project_organization p) as [org|];
      [simpl|done].
    destruct (org_owner org) as [owner|]; simpl.
    + apply andb_true_iff in Hcan as [Hrow Hactor].
      apply bool_decide_eq_true in Hrow as [row Hrow].
      rewrite Hrow. simpl. rewrite Hactor. simpl.
      destruct status as [s|], description, due_date;
        simpl; repeat case_decide; (eexists; split; [reflexivity|done]).
    + destruct status as [s|], description, due_date;
        simpl; repeat case_decide; (eexists; split; [reflexivity|done]).
  - destruct status as [s|], description, due_date;
      simpl; repeat case_decide; (eexists; split; [reflexivity|done]).
Qed.

(** C5: on an existing task, [UpdateTask] with only [status="DONE"]
    provided succeeds for every actor, sets the status of the task to
    [DONE] and saves it, and leaves its description, assignee email and
    due date (and its title and project) as they were. *)
Theorem UpdateTask_mutate_status_only
    (db : DB) (info : ContextUser) (task_id : pk) (t : Task) :
  tasks db !! task_id = Some t →
  ∃ t' db',
    UpdateTask_mutate info task_id (Some "DONE") None None None db
      = (inr (task_id, t'), db')
    ∧ tasks db' !! task_id = Some t'
    ∧ task_status t' = "DONE"
    ∧ task_description t' = task_description t
    ∧ task_assignee_email t' = task_assignee_email t
    ∧ task_due_date t' = task_due_date t
    ∧ task_title t' = task_title t
    ∧ task_project t' = task_project t.
Proof.
  intros Ht.
  destruct (UpdateTask_mutate_allowed db info task_id t (Some "DONE") None
              None None Ht (or_introl eq_refl))
    as (t' & Hrun & Hs & Hd & Ha & Hdd & Hp & Htitle).
  exists t'. eexists. split; [exact Hrun|].
  split; [apply lookup_insert_eq|]. done.
Qed.

Lemma UpdateTask_mutate_status_only_witness :
  ∃ t' db',
    UpdateTask_mutate AnonymousUser 3 (Some "DONE") None None None Sample.db
      = (inr (3%positive, t'), db')
    ∧ tasks db' !! 3%positive = Some t'
    ∧ task_status t' = "DONE"
    ∧ task_description t' = ""
    ∧ task_assignee_email t' = None
    ∧ task_due_date t' = None
    ∧ task_title t' = "Test"
    ∧ task_project t' = 1%positive.
Proof.
  apply (UpdateTask_mutate_status_only Sample.db AnonymousUser 3
           (Sample.task 1 "Test" "TODO")).
  reflexivity.
Defined.

(** A call of [UpdateTask] that provides an assignee the actor may not
    set, or whose way to the owner dangles, fails and writes nothing. *)
Lemma UpdateTask_mutate_not_allowed
    (db : DB) (info : ContextUser) (task_id : pk) (t : Task)
    (status description due_date : option string) (email : string) :
  tasks db !! task_id = Some t →
  canAssignTask db info t = false →
  ∃ e,
    UpdateTask_mutate info task_id status description (Some email) due_date db
      = (inl e, db).
Proof.
  intros Ht Hcan.
  unfold UpdateTask_mutate, Task_objects_get, Task_project,
    Project_organization, Organization_owner, User_ne, Task_save, objects_get.
  monad_unfold. rewrite Ht. simpl.
  unfold canAssignTask in Hcan.
  destruct (projects db !! task_project t) as [p|]; simpl; [|by eexists].
  destruct (organizations db !! project_organization p) as [org|]; simpl;
    [|by eexists].
  destruct (org_owner org) as [owner|]; simpl; [|done].
  destruct (users db !! owner) as [row|] eqn:Hrow; simpl; [|by eexists].
  rewrite bool_decide_eq_true_2 in Hcan by eauto. simpl in Hcan.
  rewrite Hcan. simpl. by eexists.
Qed.




(** C7: on an existing task, a call of [UpdateTask] that is not denied for
    its assignee and provides the empty string as status leaves the status
    as it was, while one that provides the empty string as description
    overwrites the description with it.  And no call of [UpdateTask],
    whatever it provides and however it ends, turns a status that is not
    empty into the empty string. *)
Theorem UpdateTask_mutate_empty_strings
    (db : DB) (info : ContextUser) (task_id : pk) (t : Task)
    (status description assignee_email due_date : option string) :
  tasks db !! task_id = Some t →
  (assignee_email = None ∨ canAssignTask db info t = true →
     (∃ t' db',
        UpdateTask_mutate info task_id (Some "") description assignee_email
            due_date db
          = (inr (task_id, t'), db')
        ∧ tasks db' !! task_id = Some t'
        ∧ task_status t' = task_status t)
     ∧ (∃ t' db',
        UpdateTask_mutate info task_id status (Some "") assignee_email
            due_date db
          = (inr (task_id, t'), db')
        ∧ tasks db' !! task_id = Some t'
        ∧ task_description t' = ""))
  ∧ (task_status t ≠ "" →
     ∀ r db',
       UpdateTask_mutate info task_id status description assignee_email
           due_date db
         = (r, db') →
       ∃ t', tasks db' !! task_id = Some t' ∧ task_status t' ≠ "").
Proof.
  intros Ht. split.
  - intros Hallowed. split.
    + destruct (UpdateTask_mutate_allowed db info task_id t (Some "")
                  description assignee_email due_date Ht Hallowed)
        as (t' & Hrun & Hs & _).
      exists t'. eexists. split; [exact Hrun|].
      split; [apply lookup_insert_eq|]. rewrite Hs. by case_decide.
    + destruct (UpdateTask_mutate_allowed db info task_id t status
                  (Some "") assignee_email due_date Ht Hallowed)
        as (t' & Hrun & _ & Hd & _).
      exists t'. eexists. split; [exact Hrun|].
      split; [apply lookup_insert_eq|]. exact Hd.
  - intros Hne r db' Hrun.
    assert (assignee_email = None ∨ canAssignTask db info t = true
            ∨ (∃ email, assignee_email = Some email)
              ∧ canAssignTask db info t = false) as [Hal|[Hal|[[email ->] Hno]]].
    { destruct assignee_email; [|by left].
      destruct (canAssignTask db info t); eauto. }
    1,2: destruct (UpdateTask_mutate_allowed db info task_id t status
                description assignee_email due_date Ht) as (t' & Hrun' & Hs & _);
      [by eauto|]; rewrite Hrun' in Hrun; injection Hrun as <- <-;
      exists t'; (split; [apply lookup_insert_eq|]); rewrite Hs;
      destruct status; [by case_decide | done].
    destruct (UpdateTask_mutate_not_allowed db info task_id t status
                description due_date email Ht Hno) as [e Hrun'].
    rewrite Hrun' in Hrun. injection Hrun as <- <-. eauto.
Qed.

Lemma UpdateTask_mutate_empty_strings_witness :
  (∃ t' db',
     UpdateTask_mutate (AuthenticatedUser 2) 4 (Some "") (Some "soon") None
         None Sample.db
       = (inr (4%positive, t'), db')
     ∧ tasks db' !! 4%positive = Some t'
     ∧ task_status t' = "TODO")
  ∧ (∃ t' db',
     UpdateTask_mutate (AuthenticatedUser 2) 4 (Some "") (Some "") None None
         Sample.db
       = (inr (4%positive, t'), db')
     ∧ tasks db' !! 4%positive = Some t'
     ∧ task_description t' = "").
Proof.
  destruct (UpdateTask_mutate_empty_strings Sample.db (AuthenticatedUser 2) 4
              (Sample.task 1 "Ship" "TODO") (Some "") (Some "soon") None None
              eq_refl) as [H _].
  exact (H (or_introl eq_refl)).
Defined.

(** ** The completion rate of a project *)

Lemma size_Task_filter_status (status : string) (queryset : gmap pk Task) :
  size (Task_filter_status status queryset)
  = length (filter (λ s, s = status)
              ((λ kv, task_status kv.2) <$> map_to_list queryset)).
Proof.
  unfold Task_filter_status.
  induction queryset as [|id t m Hid IH] using map_ind.
  - by rewrite map_filter_empty, map_to_list_empty.
  - rewrite map_to_list_insert by done. rewrite fmap_cons, filter_cons. simpl.
    destruct (decide (task_status t = status)) as [Heq|Hne].
    + rewrite map_filter_insert_True by done.
      rewrite map_size_insert_None by (by apply map_lookup_filter_None_2; left).
      simpl. by rewrite IH.
    + rewrite map_filter_insert_False by done.
      rewrite delete_id by done. by rewrite IH.
Qed.

Lemma count_Project_tasks (self : pk * Project) (db : DB) :
  count (Project_tasks self db)
  = Z.of_nat (length (Project_task_statuses self db)).
Proof.
  unfold count, Project_task_statuses.
  by rewrite length_fmap, length_map_to_list.
Qed.

Lemma count_Project_tasks_done (self : pk * Project) (db : DB) :
  count (Task_filter_status "DONE" (Project_tasks self db))
  = Z.of_nat (length (filter (λ s, s = "DONE") (Project_task_statuses self db))).
Proof. unfold count. by rewrite size_Task_filter_status. Qed.

Lemma resolve_completion_rate_zero (self : pk * Project) (db : DB) :
  count (Project_tasks self db) = 0%Z →
  ProjectType_resolve_completion_rate self db = (inr float_zero, db).
Proof.
  intros H. unfold ProjectType_resolve_completion_rate. monad_unfold.
  by rewrite H.
Qed.

Lemma resolve_completion_rate_nonzero (self : pk * Project) (db : DB) :
  count (Project_tasks self db) ≠ 0%Z →
  ProjectType_resolve_completion_rate self db
  = (inr (percent_of
            (count (Task_filter_status "DONE" (Project_tasks self db)))
            (count (Project_tasks self db))), db).
Proof.
  intros H. unfold ProjectType_resolve_completion_rate, int_truediv.
  monad_unfold.
  destruct (decide (count (Project_tasks self db) = 0%Z)); [done|].
  done.
Qed.

(** C4: the completion rate of a project is computed without ever raising:
    it is the float [0.0] for a project with no task, and otherwise the
    float [(completed / total) * 100], where [total] counts the tasks of
    the project and [completed] those of them whose status is [DONE]; for
    a project whose tasks have the statuses [DONE, DONE, TODO, TODO], in
    any order, it is [50.0].  The store is not changed. *)
Theorem ProjectType_resolve_completion_rate_value
    (db : DB) (self : pk * Project) :
  (∃ rate, ProjectType_resolve_completion_rate self db = (inr rate, db))
  ∧ (Project_task_statuses self db = [] →
     ProjectType_resolve_completion_rate self db = (inr float_zero, db))
  ∧ (Project_task_statuses self db ≠ [] →
     ProjectType_resolve_completion_rate self db
     = (inr (percent_of
               (Z.of_nat (length (filter (λ s, s = "DONE")
                                    (Project_task_statuses self db))))
               (Z.of_nat (length (Project_task_statuses self db)))), db))
  ∧ (Project_task_statuses self db ≡ₚ ["DONE"; "DONE"; "TODO"; "TODO"] →
     ProjectType_resolve_completion_rate self db = (inr float_fifty, db)).
Proof.
  assert (Project_task_statuses self db ≠ [] →
          ProjectType_resolve_completion_rate self db
          = (inr (percent_of
                    (Z.of_nat (length (filter (λ s, s = "DONE")
                                         (Project_task_statuses self db))))
                    (Z.of_nat (length (Project_task_statuses self db)))), db))
    as Hnonzero.
  { intros Hne. rewrite resolve_completion_rate_nonzero.
    - by rewrite count_Project_tasks_done, count_Project_tasks.
    - rewrite count_Project_tasks.
      destruct (Project_task_statuses self db); [done|]. simpl. lia. }
  assert (Project_task_statuses self db = [] →
          ProjectType_resolve_completion_rate self db = (inr float_zero, db))
    as Hzero.
  { intros Hnil. apply resolve_completion_rate_zero.
    by rewrite count_Project_tasks, Hnil. }
  split; [|split; [done|split; [done|]]].
  - destruct (decide (Project_task_statuses self db = [])); eauto.
  - intros Hperm. rewrite Hnonzero.
    + by rewrite Hperm.
    + intros Hnil. rewrite Hnil in Hperm.
      by apply Permutation_nil_l in Hperm.
Qed.

Lemma ProjectType_resolve_completion_rate_value_witness :
  ProjectType_resolve_completion_rate (1%positive, Sample.website) Sample.db
    = (inr float_fifty, Sample.db)
  ∧ ProjectType_resolve_completion_rate (2%positive, Sample.backlog) Sample.db
    = (inr float_zero, Sample.db).
Proof.
  split.
  - destruct (ProjectType_resolve_completion_rate_value Sample.db
                (1%positive, Sample.website)) as (_ & _ & _ & Hfifty).
    apply Hfifty.
    change (Project_task_statuses (1%positive, Sample.website) Sample.db)
      with (app ["TODO"; "TODO"] ["DONE"; "DONE"]).
    apply Permutation_app_comm.
  - destruct (ProjectType_resolve_completion_rate_value Sample.db
                (2%positive, Sample.backlog)) as (_ & Hzero & _).
    apply Hzero. reflexivity.
Defined.

(** ** Register: join or create by slug *)

Lemma get_slug_DoesNotExist (slug : string) (db : DB) :
  map_Forall (λ _ o, org_slug o ≠ slug) (organizations db) →
  Organization_objects_get_slug slug db
  = (inl (DoesNotExist MOrganization), db).
Proof.
  intros Hfree. unfold Organization_objects_get_slug,
    Organization_objects_filter_slug.
  replace (filter (λ kv, org_slug kv.2 = slug) (organizations db))
    with (∅ : gmap pk Organization); [by rewrite map_to_list_empty|].
  symmetry. apply map_empty_filter_2.
  intros id o Ho. by apply (Hfree id o Ho).
Qed.

Lemma get_slug_singleton (slug : string) (db : DB) (id : pk)
    (org : Organization) :
  Organization_objects_filter_slug slug db = {[ id := org ]} →
  Organization_objects_get_slug slug db = (inr (id, org), db).
Proof.
  intros Hone. unfold Organization_objects_get_slug.
  by rewrite Hone, map_to_list_singleton.
Qed.

(** [create_user] inserts the normalized row when the username is not
    empty and its normal form is the username of no row. *)
Lemma User_objects_create_user_run
    (normalize_username normalize_email make_password : string → string)
    (username email password : string) (db : DB) :
  username ≠ "" →
  map_Forall (λ _ u, user_username u ≠ normalize_username username)
    (users db) →
  User_objects_create_user normalize_username normalize_email make_password
      username email password db
  = (inr (fresh (dom (users db)),
          mkUser (normalize_username username) (normalize_email email)
            (make_password password)),
     set_users
       (insert (fresh (dom (users db)))
          (mkUser (normalize_username username) (normalize_email email)
             (make_password password))) db).
Proof.
  intros Hset Hfree. unfold User_objects_create_user.
  destruct (decide (username = "")) as [|_]; [done|].
  monad_unfold.
  rewrite bool_decide_eq_false_2 by by apply map_not_Exists.
  done.
Qed.

(** The first registration under a slug creates the organization. *)
Lemma Register_mutate_creates
    (slugify normalize_username normalize_email make_password : string → string)
    (get_token : pk * User → string)
    (db : DB) (info : ContextUser)
    (username password email organization_name : string) :
  username ≠ "" →
  map_Forall (λ _ u, user_username u ≠ username) (users db) →
  map_Forall (λ _ u, user_username u ≠ normalize_username username)
    (users db) →
  map_Forall (λ _ o, org_slug o ≠ slugify organization_name)
    (organizations db) →
  ∀ user_id user_row org_id org_row,
    user_id = fresh (dom (users db)) →
    user_row = mkUser (normalize_username username) (normalize_email email)
      (make_password password) →
    org_id = fresh (dom (organizations db)) →
    org_row = mkOrganization organization_name (slugify organization_name)
                (Some user_id) →
    Register_mutate slugify normalize_username normalize_email make_password
        get_token info username password email organization_name db
    = (inr (mkRegister (user_id, user_row) (org_id, org_row)
              (get_token (user_id, user_row))),
       mkDB (<[user_id := user_row]> (users db))
            (<[org_id := org_row]> (organizations db))
            ({[ (org_id, user_id) ]} ∪ organization_members db)
            (projects db) (tasks db)).
Proof.
  intros Hset Hfree Hnormal Hslug user_id user_row org_id org_row -> -> -> ->.
  unfold Register_mutate.
  rewrite (bind_inr _ _ _ _ _ (username_exists_false _ _ Hfree)).
  rewrite (bind_inr _ _ _ _ _
             (User_objects_create_user_run _ _ _ _ _ _ _ Hset Hnormal)).
  unfold try_except, Organization_objects_create, Organization_members_add,
    Organization_save.
  monad_unfold.
  rewrite get_slug_DoesNotExist by done. simpl.
  unfold set_organizations, set_organization_members, set_users. simpl.
  by rewrite insert_insert_eq.
Qed.

(** A registration under the slug of an organization joins it. *)
Lemma Register_mutate_joins
    (slugify normalize_username normalize_email make_password : string → string)
    (get_token : pk * User → string)
    (db : DB) (info : ContextUser)
    (username password email organization_name : string)
    (org_id : pk) (org_row : Organization) :
  username ≠ "" →
  map_Forall (λ _ u, user_username u ≠ username) (users db) →
  map_Forall (λ _ u, user_username u ≠ normalize_username username)
    (users db) →
  Organization_objects_filter_slug (slugify organization_name) db
    = {[ org_id := org_row ]} →
  ∀ user_id user_row,
    user_id = fresh (dom (users db)) →
    user_row = mkUser (normalize_username username) (normalize_email email)
      (make_password password) →
    Register_mutate slugify normalize_username normalize_email make_password
        get_token info username password email organization_name db
    = (inr (mkRegister (user_id, user_row) (org_id, org_row)
              (get_token (user_id, user_row))),
       mkDB (<[user_id := user_row]> (users db))
            (<[org_id := org_row]> (organizations db))
            ({[ (org_id, user_id) ]} ∪ organization_members db)
            (projects db) (tasks db)).
Proof.
  intros Hset Hfree Hnormal Hone user_id user_row -> ->.
  unfold Register_mutate.
  rewrite (bind_inr _ _ _ _ _ (username_exists_false _ _ Hfree)).
  rewrite (bind_inr _ _ _ _ _
             (User_objects_create_user_run _ _ _ _ _ _ _ Hset Hnormal)).
  unfold try_except, Organization_members_add, Organization_save.
  monad_unfold.
  rewrite (get_slug_singleton _ _ org_id org_row) by done.
  done.
Qed.

(** A username that no row has as it is given, but whose normal form a
    row has, passes the check of [Register] and is refused by the unique
    column: the call fails with an [IntegrityError] and writes nothing. *)
Lemma Register_mutate_normalized_collision
    (slugify normalize_username normalize_email make_password : string → string)
    (get_token : pk * User → string)
    (db : DB) (info : ContextUser) (id : pk) (u : User)
    (username password email organization_name : string) :
  username ≠ "" →
  map_Forall (λ _ u, user_username u ≠ username) (users db) →
  users db !! id = Some u →
  user_username u = normalize_username username →
  Register_mutate slugify normalize_username normalize_email make_password
      get_token info username password email organization_name db
  = (inl (IntegrityError MUser), db).
Proof.
  intros Hset Hfree Hu Hn. unfold Register_mutate.
  rewrite (bind_inr _ _ _ _ _ (username_exists_false _ _ Hfree)).
  unfold User_objects_create_user.
  destruct (decide (username = "")) as [|_]; [done|].
  monad_unfold.
  rewrite bool_decide_eq_true_2; [done|].
  apply map_Exists_lookup. eauto.
Qed.

Example Register_mutate_fish_then_ligature :
  ∃ r1,
    (Register_mutate Sample.slugify Sample.normalize_username
       Sample.normalize_email Sample.make_password Sample.get_token
       AnonymousUser "fish" "pw" "f@x.com" "Acme" Sample.db).1 = inr r1
    ∧ Register_mutate Sample.slugify Sample.normalize_username
        Sample.normalize_email Sample.make_password Sample.get_token
        AnonymousUser "ﬁsh" "pw" "g@x.com" "Acme"
        (Register_mutate Sample.slugify Sample.normalize_username
           Sample.normalize_email Sample.make_password Sample.get_token
           AnonymousUser "fish" "pw" "f@x.com" "Acme" Sample.db).2
      = (inl (IntegrityError MUser),
         (Register_mutate Sample.slugify Sample.normalize_username
            Sample.normalize_email Sample.make_password Sample.get_token
            AnonymousUser "fish" "pw" "f@x.com" "Acme" Sample.db).2).
Proof. eexists. split; vm_compute; reflexivity. Qed.

(** C1: take a store with no organization of slug [s], and two [Register]
    calls, one after the other, whose organization names both slugify to
    [s] and whose usernames are not empty, are new to the store as they
    are given and as Django's user manager normalizes them, and are
    distinct from each other in both forms.  Both calls succeed, and
    afterwards exactly one organization has the slug [s].  The first call
    created it, under a new primary key, with its own name and with the
    first user as owner.  The second call returns that same organization
    and leaves its row, hence its owner, unchanged; its user is another
    user than the owner.  Both users, stored under their normalized
    usernames, are members of the organization. *)
Theorem Register_mutate_same_slug
    (slugify normalize_username normalize_email make_password : string → string)
    (get_token : pk * User → string)
    (db : DB) (info1 info2 : ContextUser)
    (username1 password1 email1 organization_name1 : string)
    (username2 password2 email2 organization_name2 : string) :
  slugify organization_name1 = slugify organization_name2 →
  username1 ≠ "" →
  username2 ≠ "" →
  normalize_username username1 ≠ username2 →
  normalize_username username1 ≠ normalize_username username2 →
  map_Forall (λ _ u,
      user_username u ≠ username1
      ∧ user_username u ≠ normalize_username username1
      ∧ user_username u ≠ username2
      ∧ user_username u ≠ normalize_username username2)
    (users db) →
  map_Forall (λ _ o, org_slug o ≠ slugify organization_name1)
    (organizations db) →
  ∃ r1 db1 r2 db2 org_id org,
    Register_mutate slugify normalize_username normalize_email make_password
        get_token info1 username1 password1 email1 organization_name1 db
      = (inr r1, db1)
    ∧ Register_mutate slugify normalize_username normalize_email make_password
        get_token info2 username2 password2 email2 organization_name2 db1
      = (inr r2, db2)
    ∧ Organization_objects_filter_slug (slugify organization_name1) db2
      = {[ org_id := org ]}
    ∧ organizations db !! org_id = None
    ∧ register_organization r1 = (org_id, org)
    ∧ organizations db1 !! org_id = Some org
    ∧ org = mkOrganization organization_name1 (slugify organization_name1)
              (Some (register_user r1).1)
    ∧ register_organization r2 = (org_id, org)
    ∧ organizations db2 !! org_id = Some org
    ∧ (register_user r2).1 ≠ (register_user r1).1
    ∧ user_username (register_user r1).2 = normalize_username username1
    ∧ user_username (register_user r2).2 = normalize_username username2
    ∧ is_member db2 org_id (register_user r1).1
    ∧ is_member db2 org_id (register_user r2).1.
Proof.
  intros Hslug Hset1 Hset2 Hne Hnormal Hfree Hnone.
  set (user_id1 := fresh (dom (users db))).
  set (user_row1 := mkUser (normalize_username username1)
                      (normalize_email email1) (make_password password1)).
  set (org_id := fresh (dom (organizations db))).
  set (org := mkOrganization organization_name1 (slugify organization_name1)
                (Some user_id1)).
  set (db1 := mkDB (<[user_id1 := user_row1]> (users db))
                (<[org_id := org]> (organizations db))
                ({[ (org_id, user_id1) ]} ∪ organization_members db)
                (projects db) (tasks db)).
  set (user_id2 := fresh (dom (users db1))).
  set (user_row2 := mkUser (normalize_username username2)
                      (normalize_email email2) (make_password password2)).
  assert (users db !! user_id1 = None) as Hfresh1 by apply fresh_key_None.
  assert (organizations db !! org_id = None) as Hfresh_org
    by apply fresh_key_None.
  assert (users db1 !! user_id2 = None) as Hfresh2 by apply fresh_key_None.
  assert (user_id2 ≠ user_id1) as Hids.
  { intros Heq. rewrite Heq in Hfresh2. simpl in Hfresh2.
    by rewrite lookup_insert_eq in Hfresh2. }
  assert (Organization_objects_filter_slug (slugify organization_name1) db1
          = {[ org_id := org ]}) as Hone.
  { unfold Organization_objects_filter_slug. simpl.
    rewrite map_filter_insert_True by done.
    rewrite map_empty_filter_2; [done|].
    intros id o Ho. by apply (Hnone id o Ho). }
  exists (mkRegister (user_id1, user_row1) (org_id, org)
            (get_token (user_id1, user_row1))), db1.
  exists (mkRegister (user_id2, user_row2) (org_id, org)
            (get_token (user_id2, user_row2))).
  exists (mkDB (<[user_id2 := user_row2]> (users db1))
            (<[org_id := org]> (organizations db1))
            ({[ (org_id, user_id2) ]} ∪ organization_members db1)
            (projects db1) (tasks db1)).
  exists org_id, org.
  split.
  { apply Register_mutate_creates; [done| | |done|done..].
    - intros id u Hu. by destruct (Hfree id u Hu).
    - intros id u Hu. by destruct (Hfree id u Hu) as (_ & ? & _). }
  split.
  { apply Register_mutate_joins; [done| | |by rewrite <- Hslug|done..].
    - simpl. apply map_Forall_insert_2; [by simpl|].
      intros id u Hu. by destruct (Hfree id u Hu) as (_ & _ & ? & _).
    - simpl. apply map_Forall_insert_2; [by simpl|].
      intros id u Hu. by destruct (Hfree id u Hu) as (_ & _ & _ & ?). }
  split.
  { unfold Organization_objects_filter_slug in *. simpl in *.
    rewrite map_filter_insert_True by done.
    rewrite Hone. apply insert_singleton_eq. }
  split; [done|]. split; [done|].
  split; [apply lookup_insert_eq|]. split; [done|]. split; [done|].
  split; [apply lookup_insert_eq|]. split; [done|]. split; [done|].
  split; [done|].
  split; split; simpl.
  - set_solver.
  - rewrite lookup_insert_ne by done. rewrite lookup_insert_eq. by eexists.
  - set_solver.
  - rewrite lookup_insert_eq. by eexists.
Qed.

Lemma Register_mutate_same_slug_witness :
  ∃ r1 db1 r2 db2 org_id org,
    Register_mutate Sample.slugify Sample.normalize_username
        Sample.normalize_email Sample.make_password Sample.get_token
        AnonymousUser "ﬁona" "pw" "f@G.com" "Globex" Sample.db
      = (inr r1, db1)
    ∧ Register_mutate Sample.slugify Sample.normalize_username
        Sample.normalize_email Sample.make_password Sample.get_token
        AnonymousUser "erin" "pw" "e@g.com" "GLOBEX" db1
      = (inr r2, db2)
    ∧ Organization_objects_filter_slug (Sample.slugify "Globex") db2
      = {[ org_id := org ]}
    ∧ organizations Sample.db !! org_id = None
    ∧ register_organization r1 = (org_id, org)
    ∧ organizations db1 !! org_id = Some org
    ∧ org = mkOrganization "Globex" (Sample.slugify "Globex")
              (Some (register_user r1).1)
    ∧ register_organization r2 = (org_id, org)
    ∧ organizations db2 !! org_id = Some org
    ∧ (register_user r2).1 ≠ (register_user r1).1
    ∧ user_username (register_user r1).2 = "fiona"
    ∧ user_username (register_user r2).2 = "erin"
    ∧ is_member db2 org_id (register_user r1).1
    ∧ is_member db2 org_id (register_user r2).1.
Proof.
  apply (Register_mutate_same_slug Sample.slugify Sample.normalize_username
           Sample.normalize_email Sample.make_password Sample.get_token
           Sample.db AnonymousUser AnonymousUser
           "ﬁona" "pw" "f@G.com" "Globex" "erin" "pw" "e@g.com" "GLOBEX");
    [reflexivity | discriminate | discriminate
    | vm_compute; discriminate | vm_compute; discriminate
    | apply (bool_decide_unpack _); by vm_compute
    | apply (bool_decide_unpack _); by vm_compute].
Defined.

(** * Further properties of the schema *)

(** ** Register, case by case *)

Lemma map_to_list_singleton_inv {A} (m : gmap pk A) (id : pk) (x : A) :
  map_to_list m = [(id, x)] → m = {[ id := x ]}.
Proof.
  intros Hl. rewrite <- (list_to_map_to_list m), Hl. simpl.
  by rewrite insert_empty.
Qed.

(** The outcomes of [Register]: it fails before any write; or it fails on
    the lookup of the organization, after the user was written; or it
    succeeds, having created the organization or joined the one there. *)
Lemma Register_mutate_cases
    (slugify normalize_username normalize_email make_password : string → string)
    (get_token : pk * User → string)
    (db : DB) (info : ContextUser)
    (username password email organization_name : string) :
  ∀ user_id user_row,
    user_id = fresh (dom (users db)) →
    user_row = mkUser (normalize_username username) (normalize_email email)
      (make_password password) →
    ∃ r db',
      Register_mutate slugify normalize_username normalize_email make_password
          get_token info username password email organization_name db
        = (r, db')
      ∧ ((db' = db ∧ ∃ e, r = inl e)
         ∨ (r = inl (MultipleObjectsReturned MOrganization)
            ∧ db' = set_users (insert user_id user_row) db
            ∧ map_Forall
                (λ _ u, user_username u ≠ normalize_username username)
                (users db)
            ∧ ∃ id1 id2 o1 o2,
                id1 ≠ id2
                ∧ organizations db !! id1 = Some o1
                ∧ organizations db !! id2 = Some o2
                ∧ org_slug o1 = org_slug o2)
         ∨ (∃ org_id org,
              r = inr (mkRegister (user_id, user_row) (org_id, org)
                         (get_token (user_id, user_row)))
              ∧ db' = mkDB (<[user_id := user_row]> (users db))
                        (<[org_id := org]> (organizations db))
                        ({[ (org_id, user_id) ]} ∪ organization_members db)
                        (projects db) (tasks db)
              ∧ username ≠ ""
              ∧ map_Forall
                  (λ _ u, user_username u ≠ normalize_username username)
                  (users db)
              ∧ org_slug org = slugify organization_name
              ∧ ((organizations db !! org_id = None
                  ∧ org = mkOrganization organization_name
                            (slugify organization_name) (Some user_id)
                  ∧ map_Forall
                      (λ _ o, org_slug o ≠ slugify organization_name)
                      (organizations db))
                 ∨ organizations db !! org_id = Some org))).
Proof.
  intros user_id user_row -> ->.
  destruct (decide (map_Exists (λ _ u, user_username u = username) (users db)))
    as [Htaken|Hfree].
  { apply map_Exists_lookup in Htaken as (id & u & Hu & Hn).
    eexists _, _. split.
    - unfold Register_mutate.
      by rewrite (bind_inr _ _ _ _ _ (username_exists_true _ _ _ _ Hu Hn)).
    - left. eauto. }
  apply map_not_Exists in Hfree.
  destruct (decide (username = "")) as [Hempty|Hset].
  { eexists _, _. split.
    - unfold Register_mutate.
      rewrite (bind_inr _ _ _ _ _ (username_exists_false _ _ Hfree)).
      unfold User_objects_create_user.
      destruct (decide (username = "")); [|done]. reflexivity.
    - left. eauto. }
  destruct (decide (map_Exists
                      (λ _ u, user_username u = normalize_username username)
                      (users db))) as [Hstored|Hnormal].
  { eexists _, _. split.
    - unfold Register_mutate.
      rewrite (bind_inr _ _ _ _ _ (username_exists_false _ _ Hfree)).
      unfold User_objects_create_user.
      destruct (decide (username = "")) as [Hempty|_];
        [by destruct (Hset Hempty)|].
      monad_unfold. rewrite bool_decide_eq_true_2 by done. reflexivity.
    - left. eauto. }
  apply map_not_Exists in Hnormal.
  destruct (map_to_list
              (Organization_objects_filter_slug (slugify organization_name) db))
    as [|[org_id org] [|[org_id' org'] rest]] eqn:Hlist.
  - apply map_to_list_empty_iff, map_empty_filter_1 in Hlist.
    eexists _, _. split.
    + by eapply Register_mutate_creates.
    + right. right. eexists _, _. split; [reflexivity|].
      split; [reflexivity|]. split; [done|]. split; [done|].
      split; [done|]. left. split; [apply fresh_key_None|]. split; [done|].
      intros id o Ho. by apply (Hlist id o Ho).
  - apply map_to_list_singleton_inv in Hlist.
    assert (organizations db !! org_id = Some org
            ∧ org_slug org = slugify organization_name) as [Horg Hslug].
    { apply (map_lookup_filter_Some
               (λ kv : pk * Organization,
                  org_slug kv.2 = slugify organization_name)).
      unfold Organization_objects_filter_slug in Hlist.
      rewrite Hlist. apply lookup_singleton_eq. }
    eexists _, _. split.
    + by eapply Register_mutate_joins.
    + right. right. eexists _, _. split; [reflexivity|].
      split; [reflexivity|]. eauto 10.
  - eexists _, _. split.
    + unfold Register_mutate.
      rewrite (bind_inr _ _ _ _ _ (username_exists_false _ _ Hfree)).
      rewrite (bind_inr _ _ _ _ _
                 (User_objects_create_user_run _ _ _ _ _ _ _ Hset Hnormal)).
      unfold try_except, Organization_objects_get_slug.
      monad_unfold.
      change (Organization_objects_filter_slug (slugify organization_name)
                (set_users (insert (fresh (dom (users db)))
                   (mkUser (normalize_username username)
                      (normalize_email email) (make_password password))) db))
        with (Organization_objects_filter_slug (slugify organization_name) db).
      rewrite Hlist. simpl. reflexivity.
    + right. left. split; [done|]. split; [done|]. split; [done|].
      assert ((org_id, org) ∈ map_to_list
                (Organization_objects_filter_slug (slugify organization_name) db))
        as H1 by (rewrite Hlist; set_solver).
      assert ((org_id', org') ∈ map_to_list
                (Organization_objects_filter_slug (slugify organization_name) db))
        as H2 by (rewrite Hlist; set_solver).
      apply elem_of_map_to_list, map_lookup_filter_Some in H1 as [H1 Hs1].
      apply elem_of_map_to_list, map_lookup_filter_Some in H2 as [H2 Hs2].
      exists org_id, org_id', org, org'.
      split; [|simpl in *; split; [done|split; [done|congruence]]].
      intros ->.
      pose proof (NoDup_fst_map_to_list
                    (Organization_objects_filter_slug
                       (slugify organization_name) db)) as Hnd.
      rewrite Hlist in Hnd. simpl in Hnd.
      apply NoDup_cons in Hnd as [Hnotin _]. set_solver.
Qed.

(** X1: whatever its outcome, [Register] changes no project and no task,
    and it keeps every user row, every organization row (hence the name,
    the slug and the owner of every organization) and every membership
    that the store had. *)
Theorem Register_mutate_keeps_rows
    (slugify normalize_username normalize_email make_password : string → string)
    (get_token : pk * User → string)
    (db : DB) (info : ContextUser)
    (username password email organization_name : string) :
  projects (Register_mutate slugify normalize_username normalize_email make_password
      get_token info
              username password email organization_name db).2 = projects db
  ∧ tasks (Register_mutate slugify normalize_username normalize_email make_password
      get_token info
             username password email organization_name db).2 = tasks db
  ∧ users db ⊆ users (Register_mutate slugify normalize_username normalize_email make_password
      get_token info
                        username password email organization_name db).2
  ∧ organizations db
    ⊆ organizations (Register_mutate slugify normalize_username normalize_email make_password
        get_token info
                       username password email organization_name db).2
  ∧ organization_members db
    ⊆ organization_members
        (Register_mutate slugify normalize_username normalize_email make_password
            get_token info
           username password email organization_name db).2.
Proof.
  destruct (Register_mutate_cases slugify normalize_username normalize_email make_password
      get_token db info
              username password email organization_name _ _ eq_refl eq_refl)
    as (r & db' & -> & [[-> _]|[(_ & -> & _)|Hok]]); simpl.
  - done.
  - repeat split; try done. apply insert_subseteq, fresh_key_None.
  - destruct Hok as (org_id & org & _ & -> & _ & _ & _ & Horg). simpl.
    split; [done|]. split; [done|].
    split; [apply insert_subseteq, fresh_key_None|].
    split; [|apply union_subseteq_r].
    destruct Horg as [(Hnew & _)|Hold].
    + by apply insert_subseteq.
    + by rewrite insert_id.
Qed.

Lemma unique_slugs_insert_new (db : DB) (id : pk) (org : Organization)
    (orgs : gmap pk Organization) :
  unique_slugs db →
  map_Forall (λ _ o, org_slug o ≠ org_slug org) (organizations db) →
  orgs = <[id := org]> (organizations db) →
  map_Forall (λ id1 o1,
    map_Forall (λ id2 o2, org_slug o1 = org_slug o2 → id1 = id2) orgs) orgs.
Proof.
  intros Huniq Hnew -> id1 o1 H1 id2 o2 H2 Heq.
  apply lookup_insert_Some in H1 as [[<- <-]|[Hne1 H1]];
    apply lookup_insert_Some in H2 as [[<- <-]|[Hne2 H2]].
  - done.
  - by destruct (Hnew id2 o2 H2).
  - by destruct (Hnew id1 o1 H1).
  - by apply (Huniq id1 o1 H1 id2 o2 H2).
Qed.

(** X2: [Register] keeps slugs unique: if no two organizations of the
    store have the same slug, none have after the call, whatever its
    arguments and its outcome. *)
Theorem Register_mutate_keeps_unique_slugs
    (slugify normalize_username normalize_email make_password : string → string)
    (get_token : pk * User → string)
    (db : DB) (info : ContextUser)
    (username password email organization_name : string) :
  unique_slugs db →
  unique_slugs (Register_mutate slugify normalize_username normalize_email make_password
      get_token info
                  username password email organization_name db).2.
Proof.
  intros Huniq.
  destruct (Register_mutate_cases slugify normalize_username normalize_email make_password
      get_token db info
              username password email organization_name _ _ eq_refl eq_refl)
    as (r & db' & -> & [[-> _]|[(_ & -> & _)|Hok]]); simpl; [done..|].
  destruct Hok as (org_id & org & _ & -> & _ & _ & Hslug & Horg).
  unfold unique_slugs. simpl.
  destruct Horg as [(_ & _ & Hnew)|Hold].
  - apply (unique_slugs_insert_new db org_id org); [done| |done].
    by rewrite Hslug.
  - by rewrite insert_id.
Qed.

Lemma Register_mutate_keeps_unique_slugs_witness :
  unique_slugs (Register_mutate Sample.slugify Sample.normalize_username Sample.normalize_email
      Sample.make_password
                  Sample.get_token AnonymousUser "dave" "pw" "d@g.com"
                  "Globex" Sample.db).2.
Proof.
  apply (Register_mutate_keeps_unique_slugs Sample.slugify
           Sample.normalize_username Sample.normalize_email
           Sample.make_password Sample.get_token Sample.db AnonymousUser
           "dave" "pw" "d@g.com" "Globex").
  apply (bool_decide_unpack _). by vm_compute.
Defined.

(** X3: [Register] keeps usernames unique: if no two users of the store
    have the same username, none have after the call, whatever its
    arguments and its outcome. *)
Theorem Register_mutate_keeps_unique_usernames
    (slugify normalize_username normalize_email make_password : string → string)
    (get_token : pk * User → string)
    (db : DB) (info : ContextUser)
    (username password email organization_name : string) :
  unique_usernames db →
  unique_usernames (Register_mutate slugify normalize_username normalize_email make_password
      get_token info
                      username password email organization_name db).2.
Proof.
  intros Huniq.
  assert (map_Forall (λ _ u, user_username u ≠ normalize_username username)
            (users db) →
          unique_usernames
            (set_users (insert (fresh (dom (users db)))
               (mkUser (normalize_username username) (normalize_email email)
                  (make_password password))) db))
    as Hinsert.
  { intros Hfree id1 u1 H1 id2 u2 H2 Heq. simpl in *.
    apply lookup_insert_Some in H1 as [[<- <-]|[Hne1 H1]];
      apply lookup_insert_Some in H2 as [[<- <-]|[Hne2 H2]].
    - done.
    - by destruct (Hfree id2 u2 H2).
    - by destruct (Hfree id1 u1 H1).
    - by apply (Huniq id1 u1 H1 id2 u2 H2). }
  destruct (Register_mutate_cases slugify normalize_username normalize_email make_password
      get_token db info
              username password email organization_name _ _ eq_refl eq_refl)
    as (r & db' & Hrun & [[-> _]|[(-> & -> & Hfree & _)|Hok]]);
    rewrite Hrun; simpl; [done| |].
  - by apply Hinsert.
  - destruct Hok as (org_id & org & _ & -> & _ & Hfree & _).
    by apply Hinsert.
Qed.

Lemma Register_mutate_keeps_unique_usernames_witness :
  unique_usernames (Register_mutate Sample.slugify Sample.normalize_username Sample.normalize_email
      Sample.make_password
                      Sample.get_token AnonymousUser "dave" "pw" "d@g.com"
                      "Globex" Sample.db).2.
Proof.
  apply (Register_mutate_keeps_unique_usernames Sample.slugify
           Sample.normalize_username Sample.normalize_email
           Sample.make_password Sample.get_token Sample.db AnonymousUser
           "dave" "pw" "d@g.com" "Globex").
  apply (bool_decide_unpack _). by vm_compute.
Defined.

(** ** Register, then the queries on the organization *)

Lemma resolve_is_admin_owner (db : DB) (self : pk * Organization)
    (owner : pk) (row : User) (info : ContextUser) :
  org_owner self.2 = Some owner →
  users db !! owner = Some row →
  OrganizationType_resolve_is_admin self info db
  = (inr (bool_decide (info = AuthenticatedUser owner)), db).
Proof.
  intros Hown Hrow.
  unfold OrganizationType_resolve_is_admin, Organization_owner, objects_get.
  rewrite Hown. monad_unfold. by rewrite Hrow.
Qed.

Lemma resolve_is_admin_unowned (db : DB) (self : pk * Organization)
    (info : ContextUser) :
  org_owner self.2 = None →
  OrganizationType_resolve_is_admin self info db = (inr false, db).
Proof.
  intros Hown.
  unfold OrganizationType_resolve_is_admin, Organization_owner.
  by rewrite Hown.
Qed.

(** X4: in a store where the owners of the organizations are among their
    members, after a [Register] that succeeds, [is_admin] of the
    organization it returns is true for the new user exactly when the
    call created the organization (it is false when the user joined one
    that was there), and it is false for the anonymous user. *)
Theorem Register_then_is_admin
    (slugify normalize_username normalize_email make_password : string → string)
    (get_token : pk * User → string)
    (db db' : DB) (info : ContextUser) (r : RegisterPayload)
    (username password email organization_name : string) :
  owners_are_members db →
  Register_mutate slugify normalize_username normalize_email make_password
      get_token info
      username password email organization_name db = (inr r, db') →
  OrganizationType_resolve_is_admin (register_organization r)
      (AuthenticatedUser (register_user r).1) db'
    = (inr (bool_decide
              (organizations db !! (register_organization r).1 = None)), db')
  ∧ OrganizationType_resolve_is_admin (register_organization r)
      AnonymousUser db'
    = (inr false, db').
Proof.
  intros Hown Hrun.
  destruct (Register_mutate_cases slugify normalize_username normalize_email make_password
      get_token db info
              username password email organization_name _ _ eq_refl eq_refl)
    as (r0 & db0 & Hrun0 & Hcases).
  rewrite Hrun in Hrun0. injection Hrun0 as <- <-.
  destruct Hcases as [[_ [e ?]]|[(? & _)|Hok]]; [done..|].
  destruct Hok as (org_id & org & [= ->] & -> & _ & _ & _ & Horg). simpl.
  destruct Horg as [(Hnew & -> & _)|Hold].
  - rewrite !(resolve_is_admin_owner _ _ (fresh (dom (users db)))
                (mkUser (normalize_username username) (normalize_email email)
      (make_password password)));
      [|done|by apply lookup_insert_eq|done|by apply lookup_insert_eq].
    rewrite bool_decide_eq_true_2 by done.
    rewrite bool_decide_eq_true_2 by done.
    by rewrite bool_decide_eq_false_2 by done.
  - rewrite (bool_decide_eq_false_2 (organizations db !! org_id = None))
      by (by rewrite Hold).
    destruct (org_owner org) as [owner|] eqn:Howner.
    + destruct (Hown org_id org Hold owner Howner) as [_ [row Hrow]].
      assert (owner ≠ fresh (dom (users db))) as Hne.
      { intros ->. by rewrite fresh_key_None in Hrow. }
      rewrite !(resolve_is_admin_owner _ _ owner row);
        [|done|by simpl; rewrite lookup_insert_ne
         |done|by simpl; rewrite lookup_insert_ne].
      rewrite bool_decide_eq_false_2 by (intros [=]; congruence).
      by rewrite bool_decide_eq_false_2 by done.
    + by rewrite !resolve_is_admin_unowned.
Qed.

Lemma Register_then_is_admin_witness :
  OrganizationType_resolve_is_admin
      (1%positive, Sample.acme) (AuthenticatedUser 4)
      (Register_mutate Sample.slugify Sample.normalize_username Sample.normalize_email
          Sample.make_password Sample.get_token
         AnonymousUser "dave" "pw" "d@x.com" "ACME" Sample.db).2
    = (inr false,
       (Register_mutate Sample.slugify Sample.normalize_username Sample.normalize_email
           Sample.make_password Sample.get_token
          AnonymousUser "dave" "pw" "d@x.com" "ACME" Sample.db).2)
  ∧ OrganizationType_resolve_is_admin (1%positive, Sample.acme) AnonymousUser
      (Register_mutate Sample.slugify Sample.normalize_username Sample.normalize_email
          Sample.make_password Sample.get_token
         AnonymousUser "dave" "pw" "d@x.com" "ACME" Sample.db).2
    = (inr false,
       (Register_mutate Sample.slugify Sample.normalize_username Sample.normalize_email
           Sample.make_password Sample.get_token
          AnonymousUser "dave" "pw" "d@x.com" "ACME" Sample.db).2).
Proof.
  apply (Register_then_is_admin Sample.slugify Sample.normalize_username Sample.normalize_email
      Sample.make_password
           Sample.get_token Sample.db _ AnonymousUser
           (mkRegister (4%positive, mkUser "dave" "d@x.com" "hashed$pw")
              (1%positive, Sample.acme) "token-for-dave")
           "dave" "pw" "d@x.com" "ACME").
  - apply (bool_decide_unpack _). by vm_compute.
  - reflexivity.
Defined.

(** X5: whatever the order in which organizations are listed, in a store
    whose join table knows the users it joins, after a [Register] that
    succeeds [my_organization] of the new user is the organization that
    [Register] returned. *)
Theorem Register_then_my_organization
    (ordering : gmap pk Organization → list (pk * Organization))
    (slugify normalize_username normalize_email make_password : string → string)
    (get_token : pk * User → string)
    (db db' : DB) (info : ContextUser) (r : RegisterPayload)
    (username password email organization_name : string) :
  (∀ orgs, ordering orgs ≡ₚ map_to_list orgs) →
  members_known db →
  Register_mutate slugify normalize_username normalize_email make_password
      get_token info
      username password email organization_name db = (inr r, db') →
  Query_resolve_my_organization ordering
      (AuthenticatedUser (register_user r).1) db'
    = (inr (Some (register_organization r)), db').
Proof.
  intros Horder Hknown Hrun.
  destruct (Register_mutate_cases slugify normalize_username normalize_email make_password
      get_token db info
              username password email organization_name _ _ eq_refl eq_refl)
    as (r0 & db0 & Hrun0 & Hcases).
  rewrite Hrun in Hrun0. injection Hrun0 as <- <-.
  destruct Hcases as [[_ [e ?]]|[(? & _)|Hok]]; [done..|].
  destruct Hok as (org_id & org & [= ->] & -> & _ & _ & _ & Horg). simpl.
  unfold Query_resolve_my_organization. monad_unfold.
  assert (User_organizations (fresh (dom (users db)))
            (mkDB (<[fresh (dom (users db)) :=
                       mkUser (normalize_username username) (normalize_email email)
      (make_password password)]>
                     (users db))
               (<[org_id := org]> (organizations db))
               ({[ (org_id, fresh (dom (users db))) ]}
                ∪ organization_members db)
               (projects db) (tasks db))
          = {[ org_id := org ]}) as ->.
  { unfold User_organizations. simpl. apply map_eq. intros id.
    destruct (decide (id = org_id)) as [->|Hne].
    - rewrite lookup_singleton_eq. apply map_lookup_filter_Some.
      split; [apply lookup_insert_eq|]. simpl.
      by apply elem_of_union_l, elem_of_singleton.
    - rewrite lookup_singleton_ne by done. apply map_lookup_filter_None.
      right. intros o _. simpl. intros Hin.
      apply elem_of_union in Hin as [Hin|Hin].
      + apply elem_of_singleton in Hin. congruence.
      + destruct (Hknown _ Hin) as [_ Huser]. simpl in Huser.
        rewrite fresh_key_None in Huser. by destruct Huser. }
  pose proof (Horder {[ org_id := org ]}) as Hperm.
  rewrite map_to_list_singleton in Hperm.
  apply Permutation_singleton_r in Hperm. by rewrite Hperm.
Qed.

Lemma Register_then_my_organization_witness :
  Query_resolve_my_organization map_to_list (AuthenticatedUser 4)
      (Register_mutate Sample.slugify Sample.normalize_username Sample.normalize_email
          Sample.make_password Sample.get_token
         AnonymousUser "dave" "pw" "d@x.com" "ACME" Sample.db).2
    = (inr (Some (1%positive, Sample.acme)),
       (Register_mutate Sample.slugify Sample.normalize_username Sample.normalize_email
           Sample.make_password Sample.get_token
          AnonymousUser "dave" "pw" "d@x.com" "ACME" Sample.db).2).
Proof.
  apply (Register_then_my_organization map_to_list Sample.slugify
           Sample.normalize_username Sample.normalize_email
           Sample.make_password Sample.get_token Sample.db _ AnonymousUser
           (mkRegister (4%positive, mkUser "dave" "d@x.com" "hashed$pw")
              (1%positive, Sample.acme) "token-for-dave")
           "dave" "pw" "d@x.com" "ACME").
  - reflexivity.
  - apply (bool_decide_unpack _). by vm_compute.
  - reflexivity.
Defined.

(** ** The [my_organization] query *)

(** X6: whatever the order in which organizations are listed,
    [my_organization] never raises and never writes; it returns [None]
    for the anonymous user; for an authenticated user it returns [None]
    exactly when no organization of the store is joined to the user, and
    an organization it returns is a row of the store that the join table
    joins to the user. *)
Theorem Query_resolve_my_organization_member
    (ordering : gmap pk Organization → list (pk * Organization)) (db : DB) :
  (∀ orgs, ordering orgs ≡ₚ map_to_list orgs) →
  Query_resolve_my_organization ordering AnonymousUser db = (inr None, db)
  ∧ ∀ user, ∃ result,
      Query_resolve_my_organization ordering (AuthenticatedUser user) db
        = (inr result, db)
      ∧ (result = None ↔
           ∀ id org, organizations db !! id = Some org →
                     (id, user) ∉ organization_members db)
      ∧ ∀ id org, result = Some (id, org) →
          organizations db !! id = Some org
          ∧ (id, user) ∈ organization_members db.
Proof.
  intros Horder. split; [done|]. intros user.
  exists (head (ordering (User_organizations user db))).
  split; [done|]. split.
  - split.
    + intros Hnone id org Horg Hin.
      assert ((id, org) ∈ ordering (User_organizations user db)) as Helem.
      { rewrite Horder. apply elem_of_map_to_list.
        by apply map_lookup_filter_Some. }
      destruct (ordering (User_organizations user db)); [|done].
      by apply not_elem_of_nil in Helem.
    + intros Hnone.
      destruct (ordering (User_organizations user db)) as [|[id org] rest]
        eqn:Hlist; [done|].
      assert ((id, org) ∈ ordering (User_organizations user db)) as Helem
        by (rewrite Hlist; apply list_elem_of_here).
      rewrite Horder in Helem.
      apply elem_of_map_to_list, map_lookup_filter_Some in Helem as [Horg Hin].
      by destruct (Hnone id org Horg).
  - intros id org Hhead.
    assert ((id, org) ∈ ordering (User_organizations user db)) as Helem.
    { destruct (ordering (User_organizations user db)); [done|].
      injection Hhead as ->. apply list_elem_of_here. }
    rewrite Horder in Helem.
    by apply elem_of_map_to_list, map_lookup_filter_Some in Helem.
Qed.

Lemma Query_resolve_my_organization_member_witness :
  Query_resolve_my_organization map_to_list AnonymousUser Sample.db
    = (inr None, Sample.db)
  ∧ ∀ user, ∃ result,
      Query_resolve_my_organization map_to_list (AuthenticatedUser user)
          Sample.db
        = (inr result, Sample.db)
      ∧ (result = None ↔
           ∀ id org, organizations Sample.db !! id = Some org →
                     (id, user) ∉ organization_members Sample.db)
      ∧ ∀ id org, result = Some (id, org) →
          organizations Sample.db !! id = Some org
          ∧ (id, user) ∈ organization_members Sample.db.
Proof.
  apply (Query_resolve_my_organization_member map_to_list Sample.db).
  reflexivity.
Defined.

(** ** UpdateTask: what a call leaves alone *)

Lemma UpdateTask_mutate_missing
    (db : DB) (info : ContextUser) (task_id : pk)
    (status description assignee_email due_date : option string) :
  tasks db !! task_id = None →
  UpdateTask_mutate info task_id status description assignee_email due_date db
  = (inl (DoesNotExist MTask), db).
Proof.
  intros Hnone. unfold UpdateTask_mutate, Task_objects_get.
  by rewrite (bind_inl _ _ _ _ _ (objects_get_None MTask tasks _ _ Hnone)).
Qed.

(** The three ways a call of [UpdateTask] can end. *)
Lemma UpdateTask_mutate_cases
    (db : DB) (info : ContextUser) (task_id : pk)
    (status description assignee_email due_date : option string) :
  (∃ e,
     UpdateTask_mutate info task_id status description assignee_email
         due_date db = (inl e, db))
  ∨ (∃ t t',
       tasks db !! task_id = Some t
       ∧ (assignee_email = None ∨ canAssignTask db info t = true)
       ∧ UpdateTask_mutate info task_id status description assignee_email
             due_date db
         = (inr (task_id, t'), set_tasks (insert task_id t') db)
       ∧ task_project t' = task_project t
       ∧ task_title t' = task_title t).
Proof.
  destruct (tasks db !! task_id) as [t|] eqn:Ht.
  - destruct assignee_email as [email|].
    + destruct (canAssignTask db info t) eqn:Hcan.
      * destruct (UpdateTask_mutate_allowed db info task_id t status
                    description (Some email) due_date Ht (or_intror Hcan))
          as (t' & Hrun & _ & _ & _ & _ & Hp & Htitle).
        right. exists t, t'. repeat split; auto.
      * left. by apply (UpdateTask_mutate_not_allowed db info task_id t).
    + destruct (UpdateTask_mutate_allowed db info task_id t status
                  description None due_date Ht (or_introl eq_refl))
        as (t' & Hrun & _ & _ & _ & _ & Hp & Htitle).
      right. exists t, t'. repeat split; auto.
  - left. eexists. by apply UpdateTask_mutate_missing.
Qed.

(** X7: a call of [UpdateTask] that fails, for whatever reason, writes
    nothing; and whatever its outcome, a call changes no user, no
    organization, no membership and no project, changes no other task
    than the one it addresses, creates no task, and leaves the project
    and the title of the task it addresses as they were. *)
Theorem UpdateTask_mutate_frame
    (db : DB) (info : ContextUser) (task_id : pk)
    (status description assignee_email due_date : option string) :
  (∀ e db',
     UpdateTask_mutate info task_id status description assignee_email
         due_date db = (inl e, db') →
     db' = db)
  ∧ ∀ r db',
      UpdateTask_mutate info task_id status description assignee_email
          due_date db = (r, db') →
      users db' = users db
      ∧ organizations db' = organizations db
      ∧ organization_members db' = organization_members db
      ∧ projects db' = projects db
      ∧ dom (tasks db') = dom (tasks db)
      ∧ (∀ id, id ≠ task_id → tasks db' !! id = tasks db !! id)
      ∧ (task_project <$> tasks db' !! task_id)
        = (task_project <$> tasks db !! task_id)
      ∧ (task_title <$> tasks db' !! task_id)
        = (task_title <$> tasks db !! task_id).
Proof.
  destruct (UpdateTask_mutate_cases db info task_id status description
              assignee_email due_date)
    as [[e Hrun]|(t & t' & Ht & _ & Hrun & Hp & Htitle)];
    rewrite Hrun; (split; [intros ? ? [= ]|intros ? ? [= <- <-]]); try done.
  simpl. repeat split; try done.
  - rewrite dom_insert_L.
    apply subseteq_union_1_L, singleton_subseteq_l, elem_of_dom. eauto.
  - intros id Hne. by rewrite lookup_insert_ne.
  - by rewrite lookup_insert_eq, Ht; simpl; rewrite Hp.
  - by rewrite lookup_insert_eq, Ht; simpl; rewrite Htitle.
Qed.

Lemma UpdateTask_mutate_frame_witness :
  (UpdateTask_mutate (AuthenticatedUser 2) 3 (Some "DONE") None
     (Some "b@x.com") None Sample.db).2 = Sample.db
  ∧ tasks (UpdateTask_mutate (AuthenticatedUser 1) 3 (Some "DONE") None
             (Some "b@x.com") None Sample.db).2 !! 4%positive
    = tasks Sample.db !! 4%positive.
Proof.
  split.
  - destruct (UpdateTask_mutate_frame Sample.db (AuthenticatedUser 2) 3
                (Some "DONE") None (Some "b@x.com") None) as [Hfail _].
    exact (Hfail
             (PyException "Only the Organization Admin can assign tasks.")
             Sample.db eq_refl).
  - destruct (UpdateTask_mutate_frame Sample.db (AuthenticatedUser 1) 3
                (Some "DONE") None (Some "b@x.com") None) as [_ Hany].
    destruct (Hany _ _ (surjective_pairing _))
      as (_ & _ & _ & _ & _ & Hother & _).
    by apply Hother.
Defined.

(** ** UpdateTask: who may assign, the due date, repeating a call *)

(** X8: for a task whose project and organization are in the store (and
    whose owner, if there is one, is a user of the store), a call of
    [UpdateTask] that provides an assignee succeeds and writes that
    assignee if and only if the organization has no owner or the actor is
    its owner; in an organization without owner every actor, the
    anonymous one included, may assign. *)
Theorem UpdateTask_mutate_assign_iff
    (db : DB) (info : ContextUser) (task_id : pk) (t : Task) (p : Project)
    (org : Organization) (status description due_date : option string)
    (email : string) :
  tasks db !! task_id = Some t →
  projects db !! task_project t = Some p →
  organizations db !! project_organization p = Some org →
  (∀ owner, org_owner org = Some owner → is_Some (users db !! owner)) →
  (∃ t' db',
     UpdateTask_mutate info task_id status description (Some email)
         due_date db = (inr (task_id, t'), db')
     ∧ tasks db' !! task_id = Some t'
     ∧ task_assignee_email t' = Some email)
  ↔ (∀ owner, org_owner org = Some owner → info = AuthenticatedUser owner).
Proof.
  intros Ht Hp Horg Hrow.
  assert (canAssignTask db info t = true
          ↔ ∀ owner, org_owner org = Some owner → info = AuthenticatedUser owner)
    as Hcan.
  { unfold canAssignTask. rewrite Hp, Horg.
    destruct (org_owner org) as [owner|].
    - rewrite (bool_decide_eq_true_2 (is_Some (users db !! owner)))
        by by apply Hrow.
      simpl. rewrite bool_decide_eq_true. split.
      + by intros -> ? [= <-].
      + intros Hall. by apply Hall.
    - split; [by intros _ ? [=]|done]. }
  split.
  - intros (t' & db' & Hrun & _). apply Hcan.
    destruct (canAssignTask db info t) eqn:Hb; [done|].
    destruct (UpdateTask_mutate_not_allowed db info task_id t status
                description due_date email Ht Hb) as [e He].
    by rewrite He in Hrun.
  - intros Hall. apply Hcan in Hall.
    destruct (UpdateTask_mutate_allowed db info task_id t status description
                (Some email) due_date Ht (or_intror Hall))
      as (t' & Hrun & _ & _ & Ha & _).
    exists t'. eexists. split; [exact Hrun|].
    split; [apply lookup_insert_eq|done].
Qed.

Lemma UpdateTask_mutate_assign_iff_witness :
  (∃ t' db',
     UpdateTask_mutate (AuthenticatedUser 1) 3 None None (Some "b@x.com")
         None Sample.db = (inr (3%positive, t'), db')
     ∧ tasks db' !! 3%positive = Some t'
     ∧ task_assignee_email t' = Some "b@x.com")
  ↔ (∀ owner, org_owner Sample.acme = Some owner →
              AuthenticatedUser 1 = AuthenticatedUser owner).
Proof.
  apply (UpdateTask_mutate_assign_iff Sample.db (AuthenticatedUser 1) 3
           (Sample.task 1 "Test" "TODO") Sample.website Sample.acme);
    [reflexivity | reflexivity | reflexivity |].
  intros owner [= <-]. by eexists.
Defined.

(** X9: in a call of [UpdateTask] that is not denied for its assignee, a
    due date provided as the empty string clears the due date of the
    task, a due date provided as any other string becomes its due date,
    and a due date that is not provided leaves it as it was. *)
Theorem UpdateTask_mutate_due_date
    (db : DB) (info : ContextUser) (task_id : pk) (t : Task)
    (status description assignee_email : option string) :
  tasks db !! task_id = Some t →
  assignee_email = None ∨ canAssignTask db info t = true →
  (∃ t' db',
     UpdateTask_mutate info task_id status description assignee_email
         (Some "") db = (inr (task_id, t'), db')
     ∧ tasks db' !! task_id = Some t'
     ∧ task_due_date t' = None)
  ∧ (∀ date, date ≠ "" →
     ∃ t' db',
       UpdateTask_mutate info task_id status description assignee_email
           (Some date) db = (inr (task_id, t'), db')
       ∧ tasks db' !! task_id = Some t'
       ∧ task_due_date t' = Some date)
  ∧ (∃ t' db',
     UpdateTask_mutate info task_id status description assignee_email
         None db = (inr (task_id, t'), db')
     ∧ tasks db' !! task_id = Some t'
     ∧ task_due_date t' = task_due_date t).
Proof.
  intros Ht Hallowed. split; [|split].
  - destruct (UpdateTask_mutate_allowed db info task_id t status description
                assignee_email (Some "") Ht Hallowed)
      as (t' & Hrun & _ & _ & _ & Hd & _).
    exists t'. eexists. split; [exact Hrun|].
    split; [apply lookup_insert_eq|]. rewrite Hd. by case_decide.
  - intros date Hdate.
    destruct (UpdateTask_mutate_allowed db info task_id t status description
                assignee_email (Some date) Ht Hallowed)
      as (t' & Hrun & _ & _ & _ & Hd & _).
    exists t'. eexists. split; [exact Hrun|].
    split; [apply lookup_insert_eq|]. rewrite Hd. by case_decide.
  - destruct (UpdateTask_mutate_allowed db info task_id t status description
                assignee_email None Ht Hallowed)
      as (t' & Hrun & _ & _ & _ & Hd & _).
    exists t'. eexists. split; [exact Hrun|].
    split; [apply lookup_insert_eq|]. exact Hd.
Qed.

Lemma UpdateTask_mutate_due_date_witness :
  ∃ t' db',
    UpdateTask_mutate AnonymousUser 2 None None None (Some "2025-03-01")
        Sample.db = (inr (2%positive, t'), db')
    ∧ tasks db' !! 2%positive = Some t'
    ∧ task_due_date t' = Some "2025-03-01".
Proof.
  destruct (UpdateTask_mutate_due_date Sample.db AnonymousUser 2
              (Sample.task 1 "Build" "DONE") None None None eq_refl
              (or_introl eq_refl)) as (_ & Hset & _).
  apply Hset. discriminate.
Defined.

Lemma Task_ext (t1 t2 : Task) :
  task_project t1 = task_project t2 →
  task_title t1 = task_title t2 →
  task_description t1 = task_description t2 →
  task_status t1 = task_status t2 →
  task_assignee_email t1 = task_assignee_email t2 →
  task_due_date t1 = task_due_date t2 →
  t1 = t2.
Proof. destruct t1, t2. simpl. by intros -> -> -> -> -> ->. Qed.

(** X10: a call of [UpdateTask] that is not denied for its assignee is
    idempotent: the same call repeated on the store it produced succeeds
    again, returns the same task and leaves that store as it is. *)
Theorem UpdateTask_mutate_idempotent
    (db : DB) (info : ContextUser) (task_id : pk) (t : Task)
    (status description assignee_email due_date : option string) :
  tasks db !! task_id = Some t →
  assignee_email = None ∨ canAssignTask db info t = true →
  ∃ t' db',
    UpdateTask_mutate info task_id status description assignee_email
        due_date db = (inr (task_id, t'), db')
    ∧ UpdateTask_mutate info task_id status description assignee_email
        due_date db' = (inr (task_id, t'), db').
Proof.
  intros Ht Hallowed.
  destruct (UpdateTask_mutate_allowed db info task_id t status description
              assignee_email due_date Ht Hallowed)
    as (t' & Hrun & Hs & Hd & Ha & Hdd & Hp & Htitle).
  exists t', (set_tasks (insert task_id t') db). split; [exact Hrun|].
  assert (assignee_email = None
          ∨ canAssignTask (set_tasks (insert task_id t') db) info t' = true)
    as Hallowed'.
  { destruct Hallowed as [?|Hcan]; [by left|right].
    unfold canAssignTask in *. simpl. by rewrite Hp. }
  destruct (UpdateTask_mutate_allowed (set_tasks (insert task_id t') db) info
              task_id t' status description assignee_email due_date
              (lookup_insert_eq _ _ _) Hallowed')
    as (t'' & Hrun' & Hs' & Hd' & Ha' & Hdd' & Hp' & Htitle').
  assert (t'' = t') as ->.
  { apply Task_ext; try done.
    - rewrite Hd', Hd. by destruct description.
    - rewrite Hs', Hs. destruct status; [by case_decide|done].
    - rewrite Ha', Ha. by destruct assignee_email.
    - rewrite Hdd', Hdd. by destruct due_date. }
  rewrite Hrun'. f_equal. unfold set_tasks. simpl.
  by rewrite insert_insert_eq.
Qed.

Lemma UpdateTask_mutate_idempotent_witness :
  ∃ t' db',
    UpdateTask_mutate (AuthenticatedUser 1) 4 (Some "DONE") (Some "")
        (Some "b@x.com") (Some "") Sample.db = (inr (4%positive, t'), db')
    ∧ UpdateTask_mutate (AuthenticatedUser 1) 4 (Some "DONE") (Some "")
        (Some "b@x.com") (Some "") db' = (inr (4%positive, t'), db').
Proof.
  apply (UpdateTask_mutate_idempotent Sample.db (AuthenticatedUser 1) 4
           (Sample.task 1 "Ship" "TODO"));
    [reflexivity | right; reflexivity].
Defined.

(** ** UpdateProject and CreateTask *)

Lemma UpdateProject_mutate_missing
    (db : DB) (info : ContextUser) (project_id : pk) (status : string) :
  projects db !! project_id = None →
  UpdateProject_mutate info project_id status db
  = (inl (DoesNotExist MProject), db).
Proof.
  intros Hnone. unfold UpdateProject_mutate, Project_objects_get.
  by rewrite (bind_inl _ _ _ _ _ (objects_get_None MProject projects _ _ Hnone)).
Qed.

Lemma UpdateProject_mutate_run
    (db : DB) (info : ContextUser) (project_id : pk) (p : Project)
    (status : string) :
  projects db !! project_id = Some p →
  UpdateProject_mutate info project_id status db
  = (inr (project_id, set_project_status status p),
     set_projects (insert project_id (set_project_status status p)) db).
Proof.
  intros Hp. unfold UpdateProject_mutate, Project_objects_get.
  by rewrite (bind_inr _ _ _ _ _ (objects_get_Some MProject projects _ _ _ Hp)).
Qed.

(** X11: the last write of [UpdateProject] wins: two calls on the same
    project id, by whichever actors, return what the second call alone
    returns and leave the store that the second call alone leaves; in
    particular a repeated call changes nothing more. *)
Theorem UpdateProject_mutate_last_write_wins
    (db : DB) (info1 info2 : ContextUser) (project_id : pk)
    (status1 status2 : string) :
  UpdateProject_mutate info2 project_id status2
    (UpdateProject_mutate info1 project_id status1 db).2
  = UpdateProject_mutate info2 project_id status2 db.
Proof.
  destruct (projects db !! project_id) as [p|] eqn:Hp.
  - rewrite (UpdateProject_mutate_run db info1 project_id p status1 Hp).
    rewrite (UpdateProject_mutate_run db info2 project_id p status2 Hp).
    simpl.
    rewrite (UpdateProject_mutate_run _ info2 project_id
               (set_project_status status1 p) status2)
      by apply lookup_insert_eq.
    unfold set_projects, set_project_status. simpl.
    by rewrite insert_insert_eq.
  - rewrite (UpdateProject_mutate_missing db info1 project_id status1 Hp).
    done.
Qed.

Lemma CreateTask_mutate_missing
    (description_default status_default : string)
    (assignee_email_default due_date_default : option string)
    (db : DB) (info : ContextUser) (project_id : pk) (title : string) :
  projects db !! project_id = None →
  CreateTask_mutate description_default status_default
      assignee_email_default due_date_default info project_id title db
  = (inl (DoesNotExist MProject), db).
Proof.
  intros Hnone. unfold CreateTask_mutate, Project_objects_get.
  by rewrite (bind_inl _ _ _ _ _ (objects_get_None MProject projects _ _ Hnone)).
Qed.

Lemma CreateTask_mutate_run
    (description_default status_default : string)
    (assignee_email_default due_date_default : option string)
    (db : DB) (info : ContextUser) (project_id : pk) (p : Project)
    (title : string) :
  projects db !! project_id = Some p →
  ∀ id row,
    id = fresh (dom (tasks db)) →
    row = mkTask project_id title description_default status_default
            assignee_email_default due_date_default →
    CreateTask_mutate description_default status_default
        assignee_email_default due_date_default info project_id title db
    = (inr (id, row), set_tasks (insert id row) db).
Proof.
  intros Hp id row -> ->. unfold CreateTask_mutate, Project_objects_get.
  by rewrite (bind_inr _ _ _ _ _ (objects_get_Some MProject projects _ _ _ Hp)).
Qed.

(** X12: after [CreateTask] on an existing project, the task count of
    that project is one more than before, and the task count of every
    other project is what it was. *)
Theorem CreateTask_then_task_count
    (description_default status_default : string)
    (assignee_email_default due_date_default : option string)
    (db : DB) (info : ContextUser) (project_id : pk) (p : Project)
    (title : string) :
  projects db !! project_id = Some p →
  ∃ t db',
    CreateTask_mutate description_default status_default
        assignee_email_default due_date_default info project_id title db
      = (inr t, db')
    ∧ (∃ n,
         ProjectType_resolve_task_count (project_id, p) db = (inr n, db)
         ∧ ProjectType_resolve_task_count (project_id, p) db'
           = (inr (n + 1)%Z, db'))
    ∧ ∀ other, other.1 ≠ project_id →
        ∃ n,
          ProjectType_resolve_task_count other db = (inr n, db)
          ∧ ProjectType_resolve_task_count other db' = (inr n, db').
Proof.
  intros Hp. eexists _, _.
  split; [by eapply CreateTask_mutate_run|].
  unfold ProjectType_resolve_task_count, gets, count, Project_tasks. simpl.
  split.
  - eexists. split; [reflexivity|]. do 2 f_equal.
    rewrite map_filter_insert_True by done.
    rewrite map_size_insert_None; [lia|].
    apply map_lookup_filter_None_2. left. apply fresh_key_None.
  - intros other Hother. eexists. split; [reflexivity|]. do 3 f_equal.
    rewrite map_filter_insert_False by (simpl; congruence).
    by rewrite delete_id by apply fresh_key_None.
Qed.

Lemma CreateTask_then_task_count_witness :
  ∃ t db',
    CreateTask_mutate "" "TODO" None None AnonymousUser 1 "Deploy" Sample.db
      = (inr t, db')
    ∧ (∃ n,
         ProjectType_resolve_task_count (1%positive, Sample.website) Sample.db
           = (inr n, Sample.db)
         ∧ ProjectType_resolve_task_count (1%positive, Sample.website) db'
           = (inr (n + 1)%Z, db'))
    ∧ ∀ other, other.1 ≠ 1%positive →
        ∃ n,
          ProjectType_resolve_task_count other Sample.db = (inr n, Sample.db)
          ∧ ProjectType_resolve_task_count other db' = (inr n, db').
Proof.
  apply (CreateTask_then_task_count "" "TODO" None None Sample.db
           AnonymousUser 1 Sample.website "Deploy").
  reflexivity.
Defined.

(** ** CreateProject *)

Lemma CreateProject_mutate_run
    (status_default : string) (db : DB) (info : ContextUser)
    (org_slug name description : string) (due_date : option string)
    (org_id : pk) (org : Organization) :
  Organization_objects_filter_slug org_slug db = {[ org_id := org ]} →
  ∀ id row,
    id = fresh (dom (projects db)) →
    row = mkProject org_id name description
            (if decide (due_date = Some "") then None else due_date)
            status_default →
    CreateProject_mutate status_default info org_slug name description
        due_date db
    = (inr (id, row), set_projects (insert id row) db).
Proof.
  intros Hone id row -> ->. unfold CreateProject_mutate.
  by rewrite (bind_inr _ _ _ _ _ (get_slug_singleton _ _ _ _ Hone)).
Qed.

Lemma filter_slug_singleton_lookup (slug : string) (db : DB) (org_id : pk)
    (org : Organization) :
  Organization_objects_filter_slug slug db = {[ org_id := org ]} →
  organizations db !! org_id = Some org ∧ org_slug org = slug.
Proof.
  intros Hone.
  apply (map_lookup_filter_Some
           (λ kv : pk * Organization, org_slug kv.2 = slug)).
  unfold Organization_objects_filter_slug in Hone.
  rewrite Hone. apply lookup_singleton_eq.
Qed.

(** X13: [CreateProject] checks neither authentication nor membership:
    for every actor, when one organization has the slug, it creates
    under a new primary key a project of that organization with the
    given name and description, the default status, and the given due
    date, an empty string standing for no due date.  The projects that
    were there are unchanged, and the new project is listed among the
    [projects] of the organization. *)
Theorem CreateProject_mutate_unchecked
    (status_default : string) (db : DB) (info viewer : ContextUser)
    (org_slug name description : string) (due_date : option string)
    (org_id : pk) (org : Organization) :
  Organization_objects_filter_slug org_slug db = {[ org_id := org ]} →
  ∃ id row db',
    CreateProject_mutate status_default info org_slug name description
        due_date db = (inr (id, row), db')
    ∧ projects db !! id = None
    ∧ row = mkProject org_id name description
              (if decide (due_date = Some "") then None else due_date)
              status_default
    ∧ db' = set_projects (insert id row) db
    ∧ (∀ id' p, projects db !! id' = Some p → projects db' !! id' = Some p)
    ∧ ∃ listed,
        OrganizationType_resolve_projects (org_id, org) viewer db'
          = (inr listed, db')
        ∧ listed !! id = Some row.
Proof.
  intros Hone. eexists _, _, _.
  split; [by eapply CreateProject_mutate_run|].
  split; [apply fresh_key_None|]. split; [done|]. split; [done|].
  split.
  - intros id' p Hp. simpl. rewrite lookup_insert_ne; [done|].
    intros <-. by rewrite fresh_key_None in Hp.
  - eexists. split; [reflexivity|]. simpl.
    apply map_lookup_filter_Some. split; [apply lookup_insert_eq|done].
Qed.

Lemma Sample_acme_by_slug :
  Organization_objects_filter_slug "acme" Sample.db
  = {[ 1%positive := Sample.acme ]}.
Proof. by vm_compute. Defined.

Lemma CreateProject_mutate_unchecked_witness :
  ∃ id row db',
    CreateProject_mutate "ACTIVE" AnonymousUser "acme" "Mobile" "" (Some "")
        Sample.db = (inr (id, row), db')
    ∧ projects Sample.db !! id = None
    ∧ row = mkProject 1 "Mobile" ""
              (if decide (Some "" = Some "") then None else Some "") "ACTIVE"
    ∧ db' = set_projects (insert id row) Sample.db
    ∧ (∀ id' p, projects Sample.db !! id' = Some p →
                projects db' !! id' = Some p)
    ∧ ∃ listed,
        OrganizationType_resolve_projects (1%positive, Sample.acme)
            AnonymousUser db' = (inr listed, db')
        ∧ listed !! id = Some row.
Proof.
  apply (CreateProject_mutate_unchecked "ACTIVE" Sample.db AnonymousUser
           AnonymousUser "acme" "Mobile" "" (Some "") 1 Sample.acme).
  exact Sample_acme_by_slug.
Defined.

Lemma resolve_project_member (db : DB) (user id : pk) (p : Project)
    (org : Organization) :
  projects db !! id = Some p →
  organizations db !! project_organization p = Some org →
  is_member db (project_organization p) user →
  Query_resolve_project (AuthenticatedUser user) id db
  = (inr (Some (id, p)), db).
Proof.
  intros Hp Horg Hin.
  unfold Query_resolve_project, try_except, Project_objects_get,
    Project_organization, objects_get. monad_unfold.
  rewrite Hp. simpl. rewrite Horg. simpl.
  rewrite bool_decide_eq_true_2; [done|].
  by apply (members_all_lookup db (project_organization p, org)).
Qed.

Lemma resolve_project_stranger (db : DB) (user id : pk) (p : Project)
    (org : Organization) :
  projects db !! id = Some p →
  organizations db !! project_organization p = Some org →
  ¬ is_member db (project_organization p) user →
  Query_resolve_project (AuthenticatedUser user) id db
  = (inl (PyException "Access Denied"), db).
Proof.
  intros Hp Horg Hout.
  unfold Query_resolve_project, try_except, Project_objects_get,
    Project_organization, objects_get. monad_unfold.
  rewrite Hp. simpl. rewrite Horg. simpl.
  rewrite bool_decide_eq_false_2; [done|].
  intros Hin.
  by apply (members_all_lookup db (project_organization p, org)) in Hin.
Qed.

(** X14: the right to create a project is not the right to read it: when
    [CreateProject] has succeeded, for whichever actor, the [project]
    query on the new project raises "Not logged in" for the anonymous
    user and "Access Denied" for an authenticated user who is not a
    member of the organization, and it returns the project as it was
    created for every member of the organization. *)
Theorem CreateProject_then_project_query
    (status_default : string) (db db' : DB) (info : ContextUser)
    (org_slug name description : string) (due_date : option string)
    (project : pk * Project) :
  CreateProject_mutate status_default info org_slug name description
      due_date db = (inr project, db') →
  Query_resolve_project AnonymousUser project.1 db'
    = (inl (PyException "Not logged in"), db')
  ∧ ∀ user,
      (is_member db (project_organization project.2) user →
       Query_resolve_project (AuthenticatedUser user) project.1 db'
         = (inr (Some project), db'))
      ∧ (¬ is_member db (project_organization project.2) user →
         Query_resolve_project (AuthenticatedUser user) project.1 db'
           = (inl (PyException "Access Denied"), db')).
Proof.
  intros Hrun. split; [done|]. intros user.
  unfold CreateProject_mutate in Hrun.
  destruct (Organization_objects_get_slug org_slug db) as [[e|[org_id org]] db0]
    eqn:Hget.
  { by rewrite (bind_inl _ _ _ _ _ Hget) in Hrun. }
  rewrite (bind_inr _ _ _ _ _ Hget) in Hrun.
  unfold Organization_objects_get_slug in Hget.
  destruct (map_to_list (Organization_objects_filter_slug org_slug db))
    as [|[org_id' org'] [|? ?]] eqn:Hlist; try done.
  injection Hget as -> -> ->.
  apply map_to_list_singleton_inv, filter_slug_singleton_lookup in Hlist
    as [Horg _].
  unfold Project_objects_create in Hrun. monad_unfold.
  injection Hrun as <- <-. simpl.
  split; intros Hmember.
  - apply (resolve_project_member _ _ _ _ org); simpl;
      [apply lookup_insert_eq|done|done].
  - eapply (resolve_project_stranger _ _ _ _ org); simpl;
      [apply lookup_insert_eq|done|done].
Qed.

Lemma CreateProject_then_project_query_witness :
  Query_resolve_project AnonymousUser 3
      (CreateProject_mutate "ACTIVE" AnonymousUser "acme" "Mobile" "" None
         Sample.db).2
    = (inl (PyException "Not logged in"),
       (CreateProject_mutate "ACTIVE" AnonymousUser "acme" "Mobile" "" None
          Sample.db).2)
  ∧ ∀ user,
      (is_member Sample.db 1 user →
       Query_resolve_project (AuthenticatedUser user) 3
           (CreateProject_mutate "ACTIVE" AnonymousUser "acme" "Mobile" ""
              None Sample.db).2
         = (inr (Some (3%positive, mkProject 1 "Mobile" "" None "ACTIVE")),
            (CreateProject_mutate "ACTIVE" AnonymousUser "acme" "Mobile" ""
               None Sample.db).2))
      ∧ (¬ is_member Sample.db 1 user →
         Query_resolve_project (AuthenticatedUser user) 3
             (CreateProject_mutate "ACTIVE" AnonymousUser "acme" "Mobile" ""
                None Sample.db).2
           = (inl (PyException "Access Denied"),
              (CreateProject_mutate "ACTIVE" AnonymousUser "acme" "Mobile" ""
                 None Sample.db).2)).
Proof.
  apply (CreateProject_then_project_query "ACTIVE" Sample.db _ AnonymousUser
           "acme" "Mobile" "" None
           (3%positive, mkProject 1 "Mobile" "" None "ACTIVE")).
  reflexivity.
Defined.

(** X15: in a store where every task belongs to a project of the store,
    a project that [CreateProject] has just created has no task: its
    task count is [0] and its completion rate is [0.0]. *)
Theorem CreateProject_then_no_task
    (status_default : string) (db db' : DB) (info : ContextUser)
    (org_slug name description : string) (due_date : option string)
    (project : pk * Project) :
  tasks_known db →
  CreateProject_mutate status_default info org_slug name description
      due_date db = (inr project, db') →
  ProjectType_resolve_task_count project db' = (inr 0%Z, db')
  ∧ ProjectType_resolve_completion_rate project db' = (inr float_zero, db').
Proof.
  intros Hknown Hrun.
  assert (Project_tasks project db' = ∅) as Hnone.
  { unfold CreateProject_mutate in Hrun.
    destruct (Organization_objects_get_slug org_slug db) as [[e|org] db0]
      eqn:Hget.
    { by rewrite (bind_inl _ _ _ _ _ Hget) in Hrun. }
    rewrite (bind_inr _ _ _ _ _ Hget) in Hrun.
    assert (db0 = db) as ->.
    { unfold Organization_objects_get_slug in Hget.
      by repeat case_match; simplify_eq. }
    unfold Project_objects_create in Hrun. monad_unfold.
    injection Hrun as <- <-.
    unfold Project_tasks. simpl. apply map_empty_filter_2.
    intros id t Ht. simpl. intros Heq.
    destruct (Hknown id t Ht) as [p Hp].
    by rewrite Heq, fresh_key_None in Hp. }
  split.
  - unfold ProjectType_resolve_task_count, gets, count.
    by rewrite Hnone, map_size_empty.
  - apply resolve_completion_rate_zero. unfold count.
    by rewrite Hnone, map_size_empty.
Qed.

Lemma CreateProject_then_no_task_witness :
  ProjectType_resolve_task_count
      (3%positive, mkProject 1 "Mobile" "" None "ACTIVE")
      (CreateProject_mutate "ACTIVE" AnonymousUser "acme" "Mobile" "" None
         Sample.db).2
    = (inr 0%Z,
       (CreateProject_mutate "ACTIVE" AnonymousUser "acme" "Mobile" "" None
          Sample.db).2)
  ∧ ProjectType_resolve_completion_rate
      (3%positive, mkProject 1 "Mobile" "" None "ACTIVE")
      (CreateProject_mutate "ACTIVE" AnonymousUser "acme" "Mobile" "" None
         Sample.db).2
    = (inr float_zero,
       (CreateProject_mutate "ACTIVE" AnonymousUser "acme" "Mobile" "" None
          Sample.db).2).
Proof.
  apply (CreateProject_then_no_task "ACTIVE" Sample.db _ AnonymousUser
           "acme" "Mobile" "" None
           (3%positive, mkProject 1 "Mobile" "" None "ACTIVE")).
  - apply (bool_decide_unpack _). by vm_compute.
  - reflexivity.
Defined.

(** ** AddComment *)

Lemma Store_eta (st : Store) : mkStore (store_db st) (task_comments st) = st.
Proof. by destruct st. Qed.

(** X16: [AddComment] raises "You must be logged in to comment." for the
    anonymous user, before it looks the task up and without writing; for
    an authenticated user and an id of no task it raises [DoesNotExist]
    and writes nothing; for an authenticated user, member of the
    organization or not, and an existing task it creates under a new
    primary key a comment on that task with the given content and the
    actor as author, and changes nothing else. *)
Theorem AddComment_mutate_outcomes :
  (∀ st task_id content,
     AddComment_mutate AnonymousUser task_id content st
     = (inl (PyException "You must be logged in to comment."), st))
  ∧ (∀ st author task_id content,
       tasks (store_db st) !! task_id = None →
       AddComment_mutate (AuthenticatedUser author) task_id content st
       = (inl (DoesNotExist MTask), st))
  ∧ (∀ st author task_id t content,
       tasks (store_db st) !! task_id = Some t →
       ∃ id comment,
         AddComment_mutate (AuthenticatedUser author) task_id content st
         = (inr (id, comment),
            mkStore (store_db st) (<[id := comment]> (task_comments st)))
         ∧ task_comments st !! id = None
         ∧ comment = mkTaskComment task_id content author).
Proof.
  split; [|split].
  - intros st task_id content. unfold AddComment_mutate, lift_db, raise.
    by rewrite Store_eta.
  - intros st author task_id content Hnone.
    unfold AddComment_mutate, lift_db, Task_objects_get, objects_get.
    unfold mbind, MS_bind. rewrite Hnone. by rewrite Store_eta.
  - intros st author task_id t content Ht. eexists _, _.
    unfold AddComment_mutate, lift_db, Task_objects_get, objects_get,
      TaskComment_objects_create.
    unfold mbind, MS_bind, mret, MS_ret. rewrite Ht. simpl.
    split; [reflexivity|]. split; [apply fresh_key_None|done].
Qed.

Lemma AddComment_mutate_outcomes_witness :
  AddComment_mutate AnonymousUser 9 "hello" (mkStore Sample.db ∅)
    = (inl (PyException "You must be logged in to comment."),
       mkStore Sample.db ∅)
  ∧ AddComment_mutate (AuthenticatedUser 3) 9 "hello" (mkStore Sample.db ∅)
    = (inl (DoesNotExist MTask), mkStore Sample.db ∅)
  ∧ ∃ id comment,
      AddComment_mutate (AuthenticatedUser 3) 2 "hello" (mkStore Sample.db ∅)
      = (inr (id, comment), mkStore Sample.db (<[id := comment]> ∅))
      ∧ (∅ : gmap pk TaskComment) !! id = None
      ∧ comment = mkTaskComment 2 "hello" 3.
Proof.
  destruct AddComment_mutate_outcomes as (Hanon & Hmissing & Hok).
  split; [apply Hanon|]. split; [by apply Hmissing|].
  apply (Hok (mkStore Sample.db ∅) 3%positive 2%positive
           (Sample.task 1 "Build" "DONE") "hello").
  reflexivity.
Defined.

(** ** Identifiers and slugs that address nothing *)

Lemma CreateProject_mutate_missing
    (status_default : string) (db : DB) (info : ContextUser)
    (slug name description : string) (due_date : option string) :
  map_Forall (λ _ o, org_slug o ≠ slug) (organizations db) →
  CreateProject_mutate status_default info slug name description
      due_date db
  = (inl (DoesNotExist MOrganization), db).
Proof.
  intros Hnone. unfold CreateProject_mutate.
  by rewrite (bind_inl _ _ _ _ _ (get_slug_DoesNotExist _ _ Hnone)).
Qed.

(** X17: a mutation that addresses a row that is not there raises
    [DoesNotExist] for the model it looked up and writes nothing:
    [UpdateTask] on an id of no task (whatever it provides, and before
    the check on the assignee), [UpdateProject] and [CreateTask] on an id
    of no project, [CreateProject] on a slug of no organization. *)
Theorem mutations_on_missing_rows :
  (∀ db info task_id status description assignee_email due_date,
     tasks db !! task_id = None →
     UpdateTask_mutate info task_id status description assignee_email
         due_date db
     = (inl (DoesNotExist MTask), db))
  ∧ (∀ db info project_id status,
       projects db !! project_id = None →
       UpdateProject_mutate info project_id status db
       = (inl (DoesNotExist MProject), db))
  ∧ (∀ description_default status_default assignee_email_default
       due_date_default db info project_id title,
       projects db !! project_id = None →
       CreateTask_mutate description_default status_default
           assignee_email_default due_date_default info project_id title db
       = (inl (DoesNotExist MProject), db))
  ∧ (∀ status_default db info slug name description due_date,
       map_Forall (λ _ o, org_slug o ≠ slug) (organizations db) →
       CreateProject_mutate status_default info slug name description
           due_date db
       = (inl (DoesNotExist MOrganization), db)).
Proof.
  split; [|split; [|split]].
  - intros. by apply UpdateTask_mutate_missing.
  - intros. by apply UpdateProject_mutate_missing.
  - intros. by apply CreateTask_mutate_missing.
  - intros. by apply CreateProject_mutate_missing.
Qed.

Lemma mutations_on_missing_rows_witness :
  UpdateTask_mutate (AuthenticatedUser 2) 9 (Some "DONE") None
      (Some "b@x.com") None Sample.db
    = (inl (DoesNotExist MTask), Sample.db)
  ∧ UpdateProject_mutate AnonymousUser 9 "ARCHIVED" Sample.db
    = (inl (DoesNotExist MProject), Sample.db)
  ∧ CreateTask_mutate "" "TODO" None None AnonymousUser 9 "Deploy" Sample.db
    = (inl (DoesNotExist MProject), Sample.db)
  ∧ CreateProject_mutate "ACTIVE" AnonymousUser "globex" "Mobile" "" None
      Sample.db
    = (inl (DoesNotExist MOrganization), Sample.db).
Proof.
  destruct mutations_on_missing_rows as (Htask & Hproject & Hcreate & Hslug).
  split; [by apply Htask|]. split; [by apply Hproject|].
  split; [by apply Hcreate|].
  apply Hslug. apply (bool_decide_unpack _). by vm_compute.
Defined.

(** ** How each mutation ends *)

Lemma get_slug_cases (slug : string) (db : DB) :
  (∃ e, Organization_objects_get_slug slug db = (inl e, db))
  ∨ (∃ id org,
       Organization_objects_get_slug slug db = (inr (id, org), db)
       ∧ organizations db !! id = Some org).
Proof.
  unfold Organization_objects_get_slug.
  destruct (map_to_list (Organization_objects_filter_slug slug db))
    as [|[id org] [|? ?]] eqn:Hlist; [left; eauto| |left; eauto].
  right. exists id, org. split; [done|].
  by apply map_to_list_singleton_inv, filter_slug_singleton_lookup in Hlist
    as [? _].
Qed.

Lemma CreateProject_mutate_cases
    (status_default : string) (db : DB) (info : ContextUser)
    (slug name description : string) (due_date : option string) :
  (∃ e,
     CreateProject_mutate status_default info slug name description
         due_date db = (inl e, db))
  ∨ (∃ id row,
       CreateProject_mutate status_default info slug name description
           due_date db = (inr (id, row), set_projects (insert id row) db)
       ∧ projects db !! id = None
       ∧ is_Some (organizations db !! project_organization row)).
Proof.
  unfold CreateProject_mutate.
  destruct (get_slug_cases slug db) as [[e Hget]|(id & org & Hget & Horg)].
  - left. exists e. by rewrite (bind_inl _ _ _ _ _ Hget).
  - right. eexists _, _. rewrite (bind_inr _ _ _ _ _ Hget).
    split; [reflexivity|]. split; [apply fresh_key_None|]. simpl. eauto.
Qed.

Lemma UpdateProject_mutate_cases
    (db : DB) (info : ContextUser) (project_id : pk) (status : string) :
  (∃ e, UpdateProject_mutate info project_id status db = (inl e, db))
  ∨ (∃ p row,
       projects db !! project_id = Some p
       ∧ UpdateProject_mutate info project_id status db
         = (inr (project_id, row), set_projects (insert project_id row) db)
       ∧ project_organization row = project_organization p).
Proof.
  destruct (projects db !! project_id) as [p|] eqn:Hp.
  - right. exists p, (set_project_status status p).
    split; [done|]. split; [by apply UpdateProject_mutate_run|done].
  - left. eexists. by apply UpdateProject_mutate_missing.
Qed.

Lemma CreateTask_mutate_cases
    (description_default status_default : string)
    (assignee_email_default due_date_default : option string)
    (db : DB) (info : ContextUser) (project_id : pk) (title : string) :
  (∃ e,
     CreateTask_mutate description_default status_default
         assignee_email_default due_date_default info project_id title db
     = (inl e, db))
  ∨ (∃ id row,
       CreateTask_mutate description_default status_default
           assignee_email_default due_date_default info project_id title db
       = (inr (id, row), set_tasks (insert id row) db)
       ∧ tasks db !! id = None
       ∧ is_Some (projects db !! task_project row)).
Proof.
  destruct (projects db !! project_id) as [p|] eqn:Hp.
  - right. eexists _, _. split; [by eapply CreateTask_mutate_run|].
    split; [apply fresh_key_None|]. simpl. eauto.
  - left. eexists. by apply CreateTask_mutate_missing.
Qed.

Lemma Register_mutate_db_step
    (slugify normalize_username normalize_email make_password : string → string)
    (get_token : pk * User → string)
    (db : DB) (info : ContextUser)
    (username password email organization_name : string) :
  db_step db (Register_mutate slugify normalize_username normalize_email make_password
      get_token info
                username password email organization_name db).2.
Proof.
  destruct (Register_mutate_cases slugify normalize_username normalize_email make_password
      get_token db info
              username password email organization_name _ _ eq_refl eq_refl)
    as (r & db' & -> & [[-> _]|[(_ & -> & Hfree & _)|Hok]]); simpl.
  - constructor.
  - apply db_step_user; [apply fresh_key_None|done].
  - destruct Hok as (org_id & org & _ & -> & _ & Hfree & Hslug & Horg).
    apply db_step_register; [apply fresh_key_None|done|].
    destruct Horg as [(Hnew & -> & Hnone)|Hold]; [left|by right].
    by repeat split.
Qed.

Lemma CreateProject_mutate_db_step
    (status_default : string) (db : DB) (info : ContextUser)
    (slug name description : string) (due_date : option string) :
  db_step db (CreateProject_mutate status_default info slug name description
                due_date db).2.
Proof.
  destruct (CreateProject_mutate_cases status_default db info slug name
              description due_date) as [[e ->]|(id & row & -> & _ & Horg)].
  - constructor.
  - by constructor.
Qed.

Lemma UpdateProject_mutate_db_step
    (db : DB) (info : ContextUser) (project_id : pk) (status : string)
    (Hknown : projects_known db) :
  db_step db (UpdateProject_mutate info project_id status db).2.
Proof.
  destruct (UpdateProject_mutate_cases db info project_id status)
    as [[e ->]|(p & row & Hp & -> & Horg)].
  - constructor.
  - constructor. rewrite Horg. by apply (Hknown project_id p).
Qed.

Lemma CreateTask_mutate_db_step
    (description_default status_default : string)
    (assignee_email_default due_date_default : option string)
    (db : DB) (info : ContextUser) (project_id : pk) (title : string) :
  db_step db (CreateTask_mutate description_default status_default
                assignee_email_default due_date_default info project_id
                title db).2.
Proof.
  destruct (CreateTask_mutate_cases description_default status_default
              assignee_email_default due_date_default db info project_id
              title) as [[e ->]|(id & row & -> & _ & Hp)].
  - constructor.
  - by constructor.
Qed.

Lemma UpdateTask_mutate_db_step
    (db : DB) (info : ContextUser) (task_id : pk)
    (status description assignee_email due_date : option string)
    (Hknown : tasks_known db) :
  db_step db (UpdateTask_mutate info task_id status description
                assignee_email due_date db).2.
Proof.
  destruct (UpdateTask_mutate_cases db info task_id status description
              assignee_email due_date)
    as [[e ->]|(t & t' & Ht & _ & -> & Hp & _)].
  - constructor.
  - constructor. rewrite Hp. by apply (Hknown task_id t).
Qed.

Lemma is_member_grows (db db' : DB) (org user : pk) :
  users db ⊆ users db' →
  organization_members db ⊆ organization_members db' →
  is_member db org user → is_member db' org user.
Proof.
  intros Husers Hmembers [Hin [row Hrow]]. split; [by apply Hmembers|].
  exists row. by eapply lookup_weaken.
Qed.

Lemma is_Some_insert {A} (m : gmap pk A) (i j : pk) (x : A) :
  is_Some (m !! j) → is_Some (<[i := x]> m !! j).
Proof. rewrite lookup_insert_is_Some'. by right. Qed.

Lemma unique_usernames_insert (db : DB) (id : pk) (row : User) :
  unique_usernames db →
  map_Forall (λ _ u, user_username u ≠ user_username row) (users db) →
  map_Forall (λ id1 u1,
    map_Forall (λ id2 u2, user_username u1 = user_username u2 → id1 = id2)
      (<[id := row]> (users db))) (<[id := row]> (users db)).
Proof.
  intros Huniq Hfree id1 u1 H1 id2 u2 H2 Heq.
  apply lookup_insert_Some in H1 as [[<- <-]|[Hne1 H1]];
    apply lookup_insert_Some in H2 as [[<- <-]|[Hne2 H2]].
  - done.
  - by destruct (Hfree id2 u2 H2).
  - by destruct (Hfree id1 u1 H1).
  - by apply (Huniq id1 u1 H1 id2 u2 H2).
Qed.

Ltac split_consistent_db := split; [|split; [|split; [|split; [|split]]]].

(** The writes of the mutations keep the store consistent. *)
Lemma db_step_consistent (db db' : DB) :
  consistent_db db → db_step db db' → consistent_db db'.
Proof.
  intros (Hnames & Hslugs & Hmembers & Howners & Hprojects & Htasks) Hstep.
  destruct Hstep as [|id row Horg|id row Hp|user_id user_row Hfresh Hfree
                     |user_id user_row org_id org Hfresh Hfree Horg].
  - done.
  - split_consistent_db; try done.
    + unfold projects_known. simpl. by apply map_Forall_insert_2.
    + intros id' t Ht. simpl. by apply is_Some_insert, (Htasks id' t Ht).
  - split_consistent_db; try done.
    unfold tasks_known. simpl. by apply map_Forall_insert_2.
  - split_consistent_db; try done.
    + by apply unique_usernames_insert.
    + intros m Hm. destruct (Hmembers m Hm) as [Ho Hu].
      split; [done|]. simpl. by apply is_Some_insert.
    + intros id' o Ho owner Howner.
      apply (is_member_grows db); [by apply insert_subseteq|done|].
      by apply (Howners id' o Ho owner Howner).
  - assert (users db ⊆ <[user_id := user_row]> (users db)) as Husers
      by by apply insert_subseteq.
    assert (organization_members db
            ⊆ {[ (org_id, user_id) ]} ∪ organization_members db) as Hsub
      by apply union_subseteq_r.
    split_consistent_db.
    + by apply unique_usernames_insert.
    + unfold unique_slugs. simpl.
      destruct Horg as [(_ & _ & Hnone)|Hold].
      * by apply (unique_slugs_insert_new db org_id org).
      * by rewrite insert_id.
    + intros m Hm. simpl in *.
      apply elem_of_union in Hm as [Hm|Hm].
      * apply elem_of_singleton in Hm as ->. simpl.
        split; rewrite lookup_insert_eq; by eexists.
      * destruct (Hmembers m Hm) as [Ho Hu].
        split; by apply is_Some_insert.
    + intros id' o Ho owner Howner. simpl in Ho.
      apply lookup_insert_Some in Ho as [[<- <-]|[Hne Ho]].
      * destruct Horg as [(_ & Hown & _)|Hold].
        -- rewrite Hown in Howner. injection Howner as <-.
           split; simpl; [by apply elem_of_union_l, elem_of_singleton|].
           rewrite lookup_insert_eq. by eexists.
        -- apply (is_member_grows db); [done..|].
           by apply (Howners org_id org Hold owner Howner).
      * apply (is_member_grows db); [done..|].
        by apply (Howners id' o Ho owner Howner).
    + intros id' p Hp. simpl.
      by apply is_Some_insert, (Hprojects id' p Hp).
    + done.
Qed.

Ltac split_grows := split; [|split; [|split; [|split; [|split]]]].

Lemma grows_refl (st : Store) : grows st st.
Proof. by split_grows. Qed.

Lemma grows_set_projects (db : DB) (comments : gmap pk TaskComment)
    (id : pk) (row : Project) :
  grows (mkStore db comments)
    (mkStore (set_projects (insert id row) db) comments).
Proof.
  split_grows; try done. simpl. rewrite dom_insert_L. apply union_subseteq_r.
Qed.

Lemma grows_set_tasks (db : DB) (comments : gmap pk TaskComment)
    (id : pk) (row : Task) :
  grows (mkStore db comments) (mkStore (set_tasks (insert id row) db) comments).
Proof.
  split_grows; try done. simpl. rewrite dom_insert_L. apply union_subseteq_r.
Qed.

Lemma Register_mutate_grows
    (slugify normalize_username normalize_email make_password : string → string)
    (get_token : pk * User → string)
    (db : DB) (comments : gmap pk TaskComment) (info : ContextUser)
    (username password email organization_name : string) :
  grows (mkStore db comments)
    (mkStore (Register_mutate slugify normalize_username normalize_email make_password
        get_token info
                username password email organization_name db).2 comments).
Proof.
  destruct (Register_mutate_cases slugify normalize_username normalize_email make_password
      get_token db info
              username password email organization_name _ _ eq_refl eq_refl)
    as (r & db' & -> & [[-> _]|[(_ & -> & _)|Hok]]); simpl.
  - apply grows_refl.
  - split_grows; try done. simpl. apply insert_subseteq, fresh_key_None.
  - destruct Hok as (org_id & org & _ & -> & _ & _ & _ & Horg).
    split_grows; try done; simpl.
    + apply insert_subseteq, fresh_key_None.
    + destruct Horg as [(Hnew & _)|Hold].
      * by apply insert_subseteq.
      * by rewrite insert_id.
    + apply union_subseteq_r.
Qed.

Lemma AddComment_mutate_cases (info : ContextUser) (task_id : pk)
    (content : string) (st : Store) :
  (∃ e, AddComment_mutate info task_id content st = (inl e, st))
  ∨ (∃ author id,
       info = AuthenticatedUser author
       ∧ is_Some (tasks (store_db st) !! task_id)
       ∧ task_comments st !! id = None
       ∧ AddComment_mutate info task_id content st
         = (inr (id, mkTaskComment task_id content author),
            mkStore (store_db st)
              (<[id := mkTaskComment task_id content author]>
                 (task_comments st)))).
Proof.
  unfold AddComment_mutate, lift_db, Task_objects_get, objects_get,
    TaskComment_objects_create, raise, mbind, MS_bind, mret, MS_ret.
  destruct info as [|author].
  - left. eexists. by rewrite Store_eta.
  - destruct (tasks (store_db st) !! task_id) as [t|] eqn:Ht; simpl.
    + right. exists author, (fresh (dom (task_comments st))).
      split; [done|]. split; [by eexists|].
      split; [apply fresh_key_None|done].
    + left. eexists. by rewrite Store_eta.
Qed.

(** ** The root [Mutation] type: every request *)

Lemma lift_db_then {A} (c : M A) (f : A → Payload) (st : Store) :
  (lift_db c ≫= λ a, mret (f a)) st
  = (match (c (store_db st)).1 with
     | inl e => inl e
     | inr a => inr (f a)
     end,
     mkStore (c (store_db st)).2 (task_comments st)).
Proof.
  unfold mbind, MS_bind, mret, MS_ret, lift_db.
  by destruct (c (store_db st)) as [[e|a] db'].
Qed.

Lemma failure_unchanged {A} (c : M A) (db : DB) :
  (∃ e, c db = (inl e, db)) ∨ (∃ a db', c db = (inr a, db')) →
  ∀ e db', c db = (inl e, db') → db' = db.
Proof. intros [[e0 ->]|(a & db0 & ->)] e db' [= ]; done. Qed.

Lemma comments_known_grows (db db' : DB) (comments : gmap pk TaskComment) :
  grows (mkStore db comments) (mkStore db' comments) →
  comments_known (mkStore db comments) →
  comments_known (mkStore db' comments).
Proof.
  intros (Husers & _ & _ & _ & Htasks & _) Hknown id c Hc.
  destruct (Hknown id c Hc) as [Htask [row Hrow]]. simpl in *. split.
  - by apply elem_of_dom, Htasks, elem_of_dom.
  - exists row. by eapply lookup_weaken.
Qed.

Section Requests.

Variables (slugify normalize_username normalize_email : string → string).
Variable make_password : string → string.
Variable get_token : pk * User → string.
Variables (Task_description_default Task_status_default : string).
Variables (Task_assignee_email_default Task_due_date_default : option string).
Variable Project_status_default : string.

Local Abbreviation execute :=
  (Mutation_execute slugify normalize_username normalize_email make_password
      get_token Task_description_default
     Task_status_default Task_assignee_email_default Task_due_date_default
     Project_status_default).

Local Abbreviation reachable_store :=
  (reachable slugify normalize_username normalize_email make_password
      get_token Task_description_default
     Task_status_default Task_assignee_email_default Task_due_date_default
     Project_status_default).

(** X18: in a store where slugs are unique, a mutation that fails, for
    whatever reason, writes nothing: the store after the request is the
    store before it. *)
Theorem Mutation_execute_failure_writes_nothing
    (info : ContextUser) (call : MutationCall) (st st' : Store) (e : Exception) :
  unique_slugs (store_db st) →
  execute info call st = (inl e, st') →
  st' = st.
Proof.
  intros Hslugs Hrun.
  assert (∀ A (c : M A) (f : A → Payload),
            (∀ e db', c (store_db st) = (inl e, db') → db' = store_db st) →
            (lift_db c ≫= λ a, mret (f a)) st = (inl e, st') → st' = st)
    as Hlift.
  { intros A c f Hfail. rewrite lift_db_then. intros [= Hr <-].
    destruct (c (store_db st)) as [[e0|a] db'] eqn:Hc; [|done].
    simpl. rewrite (Hfail e0 db' eq_refl). apply Store_eta. }
  destruct call as [username password email organization_name
                  |slug name description due_date
                  |project_id status
                  |project_id title
                  |task_id status description assignee_email due_date
                  |task_id content];
    simpl in Hrun.
  - apply Hlift in Hrun; [done|]. intros e0 db' Hfail.
    destruct (Register_mutate_cases slugify normalize_username normalize_email make_password
        get_token
                (store_db st) info username password email organization_name
                _ _ eq_refl eq_refl)
      as (r & db0 & Hrun0 & [[-> _]|[(_ & _ & _ & Hdup)|Hok]]).
    + rewrite Hfail in Hrun0. by injection Hrun0 as <- <-.
    + destruct Hdup as (id1 & id2 & o1 & o2 & Hne & H1 & H2 & Heq).
      by destruct (Hne (Hslugs id1 o1 H1 id2 o2 H2 Heq)).
    + destruct Hok as (? & ? & -> & _). by rewrite Hfail in Hrun0.
  - apply Hlift in Hrun; [done|]. apply failure_unchanged.
    destruct (CreateProject_mutate_cases Project_status_default (store_db st)
                info slug name description due_date)
      as [?|(? & ? & ? & _)]; eauto.
  - apply Hlift in Hrun; [done|]. apply failure_unchanged.
    destruct (UpdateProject_mutate_cases (store_db st) info project_id status)
      as [?|(? & ? & _ & ? & _)]; eauto.
  - apply Hlift in Hrun; [done|]. apply failure_unchanged.
    destruct (CreateTask_mutate_cases Task_description_default
                Task_status_default Task_assignee_email_default
                Task_due_date_default (store_db st) info project_id title)
      as [?|(? & ? & ? & _)]; eauto.
  - apply Hlift in Hrun; [done|]. apply failure_unchanged.
    destruct (UpdateTask_mutate_cases (store_db st) info task_id status
                description assignee_email due_date)
      as [?|(? & ? & _ & _ & ? & _)]; eauto.
  - unfold mbind, MS_bind in Hrun.
    destruct (AddComment_mutate_cases info task_id content st)
      as [[e0 Hfail]|(? & ? & _ & _ & _ & Hok)].
    + rewrite Hfail in Hrun. by injection Hrun as _ <-.
    + by rewrite Hok in Hrun.
Qed.

(** X19: no mutation deletes anything: after any request, whatever its
    outcome, the store has every user row, every organization row, every
    membership and every comment it had, and a project row and a task
    row under every primary key that had one. *)
Theorem Mutation_execute_grows
    (info : ContextUser) (call : MutationCall) (st : Store) :
  grows st (execute info call st).2.
Proof.
  rewrite <- (Store_eta st) at 1.
  destruct call as [username password email organization_name
                  |slug name description due_date
                  |project_id status
                  |project_id title
                  |task_id status description assignee_email due_date
                  |task_id content];
    simpl; rewrite ?lift_db_then; simpl.
  - apply Register_mutate_grows.
  - destruct (CreateProject_mutate_cases Project_status_default (store_db st)
                info slug name description due_date)
      as [[e ->]|(id & row & -> & _)]; simpl.
    + apply grows_refl.
    + apply grows_set_projects.
  - destruct (UpdateProject_mutate_cases (store_db st) info project_id status)
      as [[e ->]|(p & row & _ & -> & _)]; simpl.
    + apply grows_refl.
    + apply grows_set_projects.
  - destruct (CreateTask_mutate_cases Task_description_default
                Task_status_default Task_assignee_email_default
                Task_due_date_default (store_db st) info project_id title)
      as [[e ->]|(id & row & -> & _)]; simpl.
    + apply grows_refl.
    + apply grows_set_tasks.
  - destruct (UpdateTask_mutate_cases (store_db st) info task_id status
                description assignee_email due_date)
      as [[e ->]|(t & t' & _ & _ & -> & _)]; simpl.
    + apply grows_refl.
    + apply grows_set_tasks.
  - unfold mbind, MS_bind.
    destruct (AddComment_mutate_cases info task_id content st)
      as [[e ->]|(author & id & _ & _ & Hfresh & ->)]; simpl.
    + rewrite Store_eta. apply grows_refl.
    + split_grows; try done. simpl. by apply insert_subseteq.
Qed.

(** Every request of a known actor keeps the store consistent. *)
Lemma Mutation_execute_consistent
    (info : ContextUser) (call : MutationCall) (st : Store) :
  actor_known info st →
  consistent st →
  consistent (execute info call st).2.
Proof.
  intros Hactor [Hdb Hcomments].
  assert (∀ A (c : M A) (f : A → Payload),
            db_step (store_db st) (c (store_db st)).2 →
            grows (mkStore (store_db st) (task_comments st))
              (mkStore (c (store_db st)).2 (task_comments st)) →
            consistent ((lift_db c ≫= λ a, mret (f a)) st).2) as Hlift.
  { intros A c f Hstep Hgrows. rewrite lift_db_then. split; simpl.
    - by apply (db_step_consistent (store_db st)).
    - apply (comments_known_grows (store_db st)); [done|].
      by rewrite Store_eta. }
  destruct Hdb as (Hnames & Hslugs & Hmembers & Howners & Hprojects & Htasks).
  destruct call as [username password email organization_name
                  |slug name description due_date
                  |project_id status
                  |project_id title
                  |task_id status description assignee_email due_date
                  |task_id content];
    simpl.
  - apply Hlift; [apply Register_mutate_db_step|apply Register_mutate_grows].
  - apply Hlift; [apply CreateProject_mutate_db_step|].
    destruct (CreateProject_mutate_cases Project_status_default (store_db st)
                info slug name description due_date)
      as [[e ->]|(id & row & -> & _)]; simpl.
    + rewrite Store_eta. apply grows_refl.
    + apply grows_set_projects.
  - apply Hlift; [by apply UpdateProject_mutate_db_step|].
    destruct (UpdateProject_mutate_cases (store_db st) info project_id status)
      as [[e ->]|(p & row & _ & -> & _)]; simpl.
    + rewrite Store_eta. apply grows_refl.
    + apply grows_set_projects.
  - apply Hlift; [apply CreateTask_mutate_db_step|].
    destruct (CreateTask_mutate_cases Task_description_default
                Task_status_default Task_assignee_email_default
                Task_due_date_default (store_db st) info project_id title)
      as [[e ->]|(id & row & -> & _)]; simpl.
    + rewrite Store_eta. apply grows_refl.
    + apply grows_set_tasks.
  - apply Hlift; [by apply UpdateTask_mutate_db_step|].
    destruct (UpdateTask_mutate_cases (store_db st) info task_id status
                description assignee_email due_date)
      as [[e ->]|(t & t' & _ & _ & -> & _)]; simpl.
    + rewrite Store_eta. apply grows_refl.
    + apply grows_set_tasks.
  - unfold mbind, MS_bind.
    destruct (AddComment_mutate_cases info task_id content st)
      as [[e ->]|(author & id & -> & Htask & Hfresh & ->)]; simpl.
    + by split.
    + split; [done|]. unfold comments_known. simpl.
      apply map_Forall_insert_2; [|done]. by split.
Qed.

(** X20: every store that the mutations build from the empty store, each
    request acting for the anonymous user or for a user of the store, is
    consistent: usernames are unique, slugs are unique, the join table
    joins organizations and users of the store, the owner of an
    organization is among its members, every project belongs to an
    organization of the store, every task to a project of the store, and
    every comment is on a task and by a user of the store. *)
Theorem reachable_consistent (st : Store) :
  reachable_store st → consistent st.
Proof.
  induction 1 as [|st info call _ IH Hactor].
  - apply (bool_decide_unpack _). by vm_compute.
  - by apply Mutation_execute_consistent.
Qed.

End Requests.

Lemma Mutation_execute_failure_writes_nothing_witness :
  (Mutation_execute Sample.slugify Sample.normalize_username Sample.normalize_email
      Sample.make_password Sample.get_token
     "" "TODO" None None "ACTIVE" (AuthenticatedUser 2)
     (update_task 3 (Some "DONE") None (Some "b@x.com") None)
     (mkStore Sample.db ∅)).2
  = mkStore Sample.db ∅.
Proof.
  apply (Mutation_execute_failure_writes_nothing Sample.slugify
           Sample.normalize_username Sample.normalize_email
           Sample.make_password Sample.get_token "" "TODO" None None "ACTIVE"
           (AuthenticatedUser 2)
           (update_task 3 (Some "DONE") None (Some "b@x.com") None)
           (mkStore Sample.db ∅) _
           (PyException "Only the Organization Admin can assign tasks.")).
  - apply (bool_decide_unpack _). by vm_compute.
  - reflexivity.
Defined.

Lemma reachable_consistent_witness :
  consistent
    (Mutation_execute Sample.slugify Sample.normalize_username Sample.normalize_email
        Sample.make_password Sample.get_token
       "" "TODO" None None "ACTIVE" AnonymousUser
       (register "alice" "pw" "a@x.com" "Acme") empty_store).2.
Proof.
  apply (reachable_consistent Sample.slugify Sample.normalize_username Sample.normalize_email
      Sample.make_password
           Sample.get_token "" "TODO" None None "ACTIVE").
  apply reachable_step; [apply reachable_empty | exact I].
Defined.

(** ** Register, then the [project] query *)

(** X21: registering under the name of an organization gives read access
    to its projects: after a [Register] that succeeds, the [project]
    query of the new user on any project of the organization that
    [Register] returned yields that project. *)
Theorem Register_then_project_query
    (slugify normalize_username normalize_email make_password : string → string)
    (get_token : pk * User → string)
    (db db' : DB) (info : ContextUser) (r : RegisterPayload)
    (username password email organization_name : string)
    (id : pk) (p : Project) :
  Register_mutate slugify normalize_username normalize_email make_password
      get_token info
      username password email organization_name db = (inr r, db') →
  projects db !! id = Some p →
  project_organization p = (register_organization r).1 →
  Query_resolve_project (AuthenticatedUser (register_user r).1) id db'
    = (inr (Some (id, p)), db').
Proof.
  intros Hrun Hp Horg.
  destruct (Register_mutate_cases slugify normalize_username normalize_email make_password
      get_token db info
              username password email organization_name _ _ eq_refl eq_refl)
    as (r0 & db0 & Hrun0 & Hcases).
  rewrite Hrun in Hrun0. injection Hrun0 as <- <-.
  destruct Hcases as [[_ [e ?]]|[(? & _)|Hok]]; [done..|].
  destruct Hok as (org_id & org & [= ->] & -> & _). simpl in *.
  apply (resolve_project_member _ _ _ _ org); simpl; rewrite ?Horg.
  - done.
  - apply lookup_insert_eq.
  - split; simpl.
    + by apply elem_of_union_l, elem_of_singleton.
    + rewrite lookup_insert_eq. by eexists.
Qed.

Lemma Register_then_project_query_witness :
  Query_resolve_project (AuthenticatedUser 4) 1
      (Register_mutate Sample.slugify Sample.normalize_username Sample.normalize_email
          Sample.make_password Sample.get_token
         AnonymousUser "dave" "pw" "d@x.com" "ACME" Sample.db).2
    = (inr (Some (1%positive, Sample.website)),
       (Register_mutate Sample.slugify Sample.normalize_username Sample.normalize_email
           Sample.make_password Sample.get_token
          AnonymousUser "dave" "pw" "d@x.com" "ACME" Sample.db).2).
Proof.
  apply (Register_then_project_query Sample.slugify Sample.normalize_username Sample.normalize_email
      Sample.make_password
           Sample.get_token Sample.db _ AnonymousUser
           (mkRegister (4%positive, mkUser "dave" "d@x.com" "hashed$pw")
              (1%positive, Sample.acme) "token-for-dave")
           "dave" "pw" "d@x.com" "ACME" 1 Sample.website);
    reflexivity.
Defined.

(** ** UpdateTask, then the completion rate *)

(** X22: marking a task done raises the completion of its project by one
    task: when a task of the project is not [DONE] and a call of
    [UpdateTask] that is not denied for its assignee provides the status
    [DONE], the completion rate of the project, which was
    [(completed / total) * 100], becomes [((completed + 1) / total) * 100]
    with the same total. *)
Theorem UpdateTask_done_then_completion_rate
    (db : DB) (info : ContextUser) (task_id : pk) (t : Task)
    (self : pk * Project)
    (description assignee_email due_date : option string) :
  tasks db !! task_id = Some t →
  task_project t = self.1 →
  task_status t ≠ "DONE" →
  assignee_email = None ∨ canAssignTask db info t = true →
  ∃ completed total task db',
    ProjectType_resolve_completion_rate self db
      = (inr (percent_of completed total), db)
    ∧ UpdateTask_mutate info task_id (Some "DONE") description assignee_email
        due_date db = (inr task, db')
    ∧ ProjectType_resolve_completion_rate self db'
      = (inr (percent_of (completed + 1) total), db')
    ∧ completed = count (Task_filter_status "DONE" (Project_tasks self db))
    ∧ total = count (Project_tasks self db).
Proof.
  intros Ht Hself Hstatus Hallowed.
  destruct (UpdateTask_mutate_allowed db info task_id t (Some "DONE")
              description assignee_email due_date Ht Hallowed)
    as (t' & Hrun & Hs & _ & _ & _ & Hp & _).
  rewrite decide_False in Hs by done.
  assert (Project_tasks self db !! task_id = Some t) as Hin
    by by apply map_lookup_filter_Some.
  assert (Project_tasks self (set_tasks (insert task_id t') db)
          = <[task_id := t']> (Project_tasks self db)) as Htasks.
  { unfold Project_tasks. simpl.
    apply map_filter_insert_True. simpl. congruence. }
  assert (count (Project_tasks self (set_tasks (insert task_id t') db))
          = count (Project_tasks self db)) as Htotal.
  { unfold count. rewrite Htasks. f_equal. by eapply map_size_insert_Some. }
  assert (count (Task_filter_status "DONE"
                   (Project_tasks self (set_tasks (insert task_id t') db)))
          = (count (Task_filter_status "DONE" (Project_tasks self db)) + 1)%Z)
    as Hdone.
  { unfold count, Task_filter_status. rewrite Htasks.
    rewrite map_filter_insert_True by done.
    rewrite map_size_insert_None; [lia|].
    apply map_lookup_filter_None_2. right. intros t0 Ht0.
    rewrite Hin in Ht0. injection Ht0 as <-. done. }
  assert (count (Project_tasks self db) ≠ 0%Z) as Hnonzero.
  { unfold count. intros H0.
    assert (size (Project_tasks self db) = 0) as Hsize by lia.
    apply map_size_empty_inv in Hsize. by rewrite Hsize in Hin. }
  eexists _, _, _, _.
  split; [by apply resolve_completion_rate_nonzero|].
  split; [exact Hrun|]. split; [|done].
  rewrite resolve_completion_rate_nonzero by by rewrite Htotal.
  by rewrite Hdone, Htotal.
Qed.

Lemma UpdateTask_done_then_completion_rate_witness :
  ∃ completed total task db',
    ProjectType_resolve_completion_rate (1%positive, Sample.website) Sample.db
      = (inr (percent_of completed total), Sample.db)
    ∧ UpdateTask_mutate AnonymousUser 3 (Some "DONE") None None None
        Sample.db = (inr task, db')
    ∧ ProjectType_resolve_completion_rate (1%positive, Sample.website) db'
      = (inr (percent_of (completed + 1) total), db')
    ∧ completed
      = count (Task_filter_status "DONE"
                 (Project_tasks (1%positive, Sample.website) Sample.db))
    ∧ total = count (Project_tasks (1%positive, Sample.website) Sample.db).
Proof.
  apply (UpdateTask_done_then_completion_rate Sample.db AnonymousUser 3
           (Sample.task 1 "Test" "TODO") (1%positive, Sample.website));
    [reflexivity | reflexivity | discriminate | left; reflexivity].
Defined.
